(** * Authentication service (login, register, refresh) and [isAppError]

    A shallow embedding of [auth.service.ts] and [utils/isAppError.ts].
    JavaScript values are a small inductive type with prototype chains, the
    [users] table is a list of rows, and each [async] service is a function
    from the table to an outcome (returned value or thrown value) and the
    table it leaves behind. *)

From Stdlib Require Import String List ZArith Bool Lia.
Import ListNotations.

Local Open Scope string_scope.
Local Open Scope Z_scope.

(** ** JavaScript values *)

Module Js.

(** A prototype object, identified by its name, with the property names it
    provides to every object that has it on its chain. *)
Record Prototype := { proto_name : string; proto_keys : list string }.

#[local] Set Warnings "-register-all".

Inductive value :=
| Undefined
| Null
| Bool (b : bool)
| Num (n : Z)
| Str (s : string)
| Object (chain : list Prototype) (own : list (string * value))
| Function (chain : list Prototype) (own : list (string * value)).

#[local] Set Warnings "register-all".

(** [typeof v] *)
Definition typeof (v : value) : string :=
  match v with
  | Undefined => "undefined"
  | Null => "object"
  | Bool _ => "boolean"
  | Num _ => "number"
  | Str _ => "string"
  | Object _ _ => "object"
  | Function _ _ => "function"
  end.

Definition chain_of (v : value) : list Prototype :=
  match v with
  | Object c _ | Function c _ => c
  | _ => []
  end.

Definition own_of (v : value) : list (string * value) :=
  match v with
  | Object _ o | Function _ o => o
  | _ => []
  end.

(** [v instanceof C], with [C.prototype = p]: [p] is on the chain of [v]. *)
Definition instanceof (v : value) (p : Prototype) : bool :=
  existsb (fun q => String.eqb (proto_name q) (proto_name p)) (chain_of v).

Definition has_own (k : string) (v : value) : bool :=
  existsb (fun kv => String.eqb (fst kv) k) (own_of v).

(** [k in v] for an object [v]: an own or an inherited property. *)
Definition has_property (k : string) (v : value) : bool :=
  has_own k v
  || existsb (fun q => existsb (String.eqb k) (proto_keys q)) (chain_of v).

(** [v[k]] on own properties; [undefined] where there is none. *)
Fixpoint lookup (k : string) (o : list (string * value)) : value :=
  match o with
  | [] => Undefined
  | (k', x) :: o' => if String.eqb k' k then x else lookup k o'
  end.

Definition get (v : value) (k : string) : value := lookup k (own_of v).

Definition Object_prototype : Prototype :=
  {| proto_name := "Object.prototype";
     proto_keys := ["constructor"; "hasOwnProperty"; "isPrototypeOf";
                    "propertyIsEnumerable"; "toLocaleString"; "toString";
                    "valueOf"; "__proto__"] |}.

Definition Error_prototype : Prototype :=
  {| proto_name := "Error.prototype";
     proto_keys := ["constructor"; "message"; "name"; "toString"] |}.

(** An object literal [{ k1: v1, ... }]. *)
Definition literal (own : list (string * value)) : value :=
  Object [Object_prototype] own.

(** [new Error(message)] *)
Definition new_Error (message : string) : value :=
  Object [Error_prototype; Object_prototype] [("message", Str message)].

Definition TypeError_prototype : Prototype :=
  {| proto_name := "TypeError.prototype";
     proto_keys := ["constructor"; "message"; "name"] |}.

(** The [TypeError] of reading a property of [undefined]. *)
Definition new_TypeError (message : string) : value :=
  Object [TypeError_prototype; Error_prototype; Object_prototype]
         [("message", Str message)].

End Js.

(** ** utils/AppError.ts and utils/isAppError.ts *)

(** Modelled from the spec: the class [AppError] ([utils/AppError.ts]), an
    [Error] that carries "an explicit status code and message". *)
Definition AppError_prototype : Js.Prototype :=
  {| Js.proto_name := "AppError.prototype"; Js.proto_keys := ["constructor"] |}.

(** [new AppError(message, statusCode)] *)
Definition new_AppError (message : string) (statusCode : Z) : Js.value :=
  Js.Object [AppError_prototype; Js.Error_prototype; Js.Object_prototype]
            [("message", Js.Str message); ("statusCode", Js.Num statusCode)].

Definition is_null (v : Js.value) : bool :=
  match v with Js.Null => true | _ => false end.

Definition isAppError (err : Js.value) : bool :=
  Js.instanceof err AppError_prototype
  || (String.eqb (Js.typeof err) "object"
      && negb (is_null err)
      && Js.has_property "message" err
      && Js.has_property "statusCode" err).

(** ** Outcomes of an [async] function over the [users] table *)

Inductive Outcome (A : Type) :=
| Returned (a : A)
| Threw (e : Js.value).

Arguments Returned {A} a.
Arguments Threw {A} e.

Inductive Role := RoleUser | RoleAdmin.

Definition role_name (r : Role) : string :=
  match r with RoleUser => "user" | RoleAdmin => "admin" end.

(** Modelled from the spec: a row of the [users] table (the type [User] of
    [types/user.types.ts]); nullable columns are options. *)
Module User.
Record t := {
  id : Z;
  email : string;
  password : string;
  first_name : string;
  last_name : string;
  date_of_birth : option string;
  photo_url : option string;
  role : option Role;
  last_login : option Z
}.

Definition set_last_login (now : Z) (u : t) : t :=
  {| id := id u; email := email u; password := password u;
     first_name := first_name u; last_name := last_name u;
     date_of_birth := date_of_birth u; photo_url := photo_url u;
     role := role u; last_login := Some now |}.
End User.

(** The credential store behind [pool]: the rows in insertion order and the
    sequence that generates [id]. *)
Record Db := { users : list User.t; users_id_seq : Z }.

Definition M (A : Type) : Type := Db -> Outcome A * Db.

Definition ret {A} (a : A) : M A := fun db => (Returned a, db).

Definition throw {A} (e : Js.value) : M A := fun db => (Threw e, db).

Definition bind {A B} (m : M A) (k : A -> M B) : M B :=
  fun db =>
    match m db with
    | (Returned a, db') => k a db'
    | (Threw e, db') => (Threw e, db')
    end.

(** [try { m } catch (error) { handler error }] *)
Definition try_catch {A} (m : M A) (handler : Js.value -> M A) : M A :=
  fun db =>
    match m db with
    | (Returned a, db') => (Returned a, db')
    | (Threw e, db') => handler e db'
    end.

(** A call that does not touch the table. *)
Definition lift {A} (o : Outcome A) : M A := fun db => (o, db).

Notation "x <- m ;; k" := (bind m (fun x => k))
  (at level 61, m at next level, right associativity).

(** ** jsonwebtoken, symbolically

    A token is its claims together with a signature, and a signature is
    determined by the key and the claims it was computed over; a token whose
    claims were altered after signing no longer matches its signature. *)

Module Jwt.

Record Payload := { userId : Z; email : string; role : option Role }.

Record Claims := { payload : Payload; iat : Z; exp : Z }.

(** The signature is a keyed function of the claims it was computed over. *)
Inductive Signature := HS256 (key : string) (signed : Claims).

Record Token := { claims : Claims; signature : Signature }.

(** The string handed to [jwt.verify]: three well-formed parts, or not. *)
Inductive Compact :=
| Malformed (s : string)
| Wellformed (t : Token).

Definition Signature_eq_dec (a b : Signature) : {a = b} + {a <> b}.
Proof. repeat decide equality. Defined.

(** [!secret] *)
Definition falsy (secret : option string) : bool :=
  match secret with
  | None => true
  | Some s => String.eqb s ""
  end.

Definition key_of (secret : option string) : string :=
  match secret with Some s => s | None => "" end.

Definition JsonWebTokenError_prototype : Js.Prototype :=
  {| Js.proto_name := "JsonWebTokenError.prototype";
     Js.proto_keys := ["constructor"] |}.

Definition TokenExpiredError_prototype : Js.Prototype :=
  {| Js.proto_name := "TokenExpiredError.prototype";
     Js.proto_keys := ["constructor"] |}.

Definition JsonWebTokenError (message : string) : Js.value :=
  Js.Object [JsonWebTokenError_prototype; Js.Error_prototype; Js.Object_prototype]
            [("name", Js.Str "JsonWebTokenError"); ("message", Js.Str message)].

Definition TokenExpiredError (expiredAt : Z) : Js.value :=
  Js.Object [TokenExpiredError_prototype; JsonWebTokenError_prototype;
             Js.Error_prototype; Js.Object_prototype]
            [("name", Js.Str "TokenExpiredError");
             ("message", Js.Str "jwt expired");
             ("expiredAt", Js.Num expiredAt)].

(** [jwt.sign(payload, secret, { expiresIn })] at clock time [now] (seconds). *)
Definition sign (p : Payload) (secret : option string) (expiresIn : Z)
    (now : Z) : Outcome Token :=
  if falsy secret then
    Threw (Js.new_Error "secretOrPrivateKey must have a value")
  else
    let c := {| payload := p; iat := now; exp := now + expiresIn |} in
    Returned {| claims := c; signature := HS256 (key_of secret) c |}.

Definition signature_valid (t : Token) (secret : option string) : bool :=
  if Signature_eq_dec (signature t) (HS256 (key_of secret) (claims t))
  then true else false.

Definition expired (t : Token) (now : Z) : bool := exp (claims t) <=? now.

(** [jwt.verify(token, secret)] at clock time [now]. *)
Definition verify (token : Compact) (secret : option string) (now : Z)
    : Outcome Claims :=
  match token with
  | Malformed _ => Threw (JsonWebTokenError "jwt malformed")
  | Wellformed t =>
    if falsy secret then
      Threw (JsonWebTokenError "secret or public key must be provided")
    else if negb (signature_valid t secret) then
      Threw (JsonWebTokenError "invalid signature")
    else if expired t now then
      Threw (TokenExpiredError (exp (claims t)))
    else Returned (claims t)
  end.

(** [t] carries the signature of [secret] over its own claims and lives
    [expiresIn] seconds from its issue. *)
Definition signed_with (t : Token) (secret : option string) (expiresIn : Z)
    : Prop :=
  signature t = HS256 (key_of secret) (claims t)
  /\ exp (claims t) = iat (claims t) + expiresIn.

End Jwt.

(** ** bcrypt *)

(** [bcrypt.hash(data, rounds)] draws a salt; [bcrypt.compare(data, hash)]
    checks [data] against a stored hash. *)
Class PasswordHasher := {
  bcrypt_hash : string -> Z -> string -> string;
  bcrypt_compare : string -> string -> bool
}.

(** What the service relies on from the hashing primitive. *)
Class HasherLaws (H : PasswordHasher) : Prop := {
  compare_hash : forall data rounds salt,
    bcrypt_compare data (bcrypt_hash data rounds salt) = true;
  hash_not_plain : forall data rounds salt,
    bcrypt_hash data rounds salt <> data
}.

(** ** config/env.ts and the surroundings of one request *)

(** The constants the service imports from [config/env.ts]: a secret may be
    undefined, an expiry is a number of seconds. *)
Record Config := {
  JWT_SECRET_ACCESS : option string;
  JWT_SECRET_REFRESH : option string;
  JWT_EXPIRES_IN_SHORT : Z;
  JWT_EXPIRES_IN_LONG : Z
}.

(** What a request finds around it: the configuration, the clock, the salt
    bcrypt draws, and, for the n-th [pool.query] of the call, the message of
    the error the driver raises instead of answering (if any). *)
Record Env := {
  config : Config;
  now : Z;
  salt : string;
  query_error : nat -> option string
}.

(** ** The statements sent to [pool.query] *)

(** The n-th query of a call: the driver's error, or the statement run. *)
Definition pool_query {A} (env : Env) (n : nat) (statement : M A) : M A :=
  fun db =>
    match query_error env n with
    | Some message => (Threw (Js.new_Error message), db)
    | None => statement db
    end.

(** [SELECT * FROM users WHERE email = $1] *)
Definition select_users_by_email (email : string) : M (list User.t) :=
  fun db =>
    (Returned (filter (fun u => String.eqb (User.email u) email) (users db)), db).

(** [SELECT id FROM users WHERE email = $1] *)
Definition select_id_by_email (email : string) : M (list Z) :=
  fun db =>
    (Returned
       (map User.id
            (filter (fun u => String.eqb (User.email u) email) (users db))),
     db).

(** [SELECT * FROM users WHERE id = $1] *)
Definition select_users_by_id (id : Z) : M (list User.t) :=
  fun db => (Returned (filter (fun u => User.id u =? id) (users db)), db).

(** [UPDATE users SET last_login = NOW() WHERE id = $1] *)
Definition update_last_login (id : Z) (now : Z) : M unit :=
  fun db =>
    (Returned tt,
     {| users := map (fun u => if User.id u =? id
                               then User.set_last_login now u else u)
                     (users db);
        users_id_seq := users_id_seq db |}).

Definition unique_violation : Js.value :=
  Js.Object [Js.Error_prototype; Js.Object_prototype]
    [("message",
      Js.Str "duplicate key value violates unique constraint");
     ("code", Js.Str "23505")].

(** Modelled from the spec: the table's schema is not part of the service.
    A row as [INSERT] creates it from the six columns it is given: [id] is
    generated, [role] defaults to "user", and [last_login] starts out null. *)
Definition inserted_row (id : Z) (email password first_name last_name : string)
    (date_of_birth photo_url : option string) : User.t :=
  {| User.id := id; User.email := email; User.password := password;
     User.first_name := first_name; User.last_name := last_name;
     User.date_of_birth := date_of_birth; User.photo_url := photo_url;
     User.role := Some RoleUser; User.last_login := None |}.

(** [INSERT INTO users (email, password, first_name, last_name,
    date_of_birth, photo_url) VALUES (...) RETURNING id].

    Modelled from the spec: [email] is unique at the store, so the statement
    is refused when a row already holds it. *)
Definition insert_user (email password first_name last_name : string)
    (date_of_birth photo_url : option string) : M (list Z) :=
  fun db =>
    if existsb (fun u => String.eqb (User.email u) email) (users db) then
      (Threw unique_violation, db)
    else
      let id := users_id_seq db in
      (Returned [id],
       {| users := users db ++
            [inserted_row id email password first_name last_name
                          date_of_birth photo_url];
          users_id_seq := id + 1 |}).

(** ** auth.service.ts *)

Record AuthResult := {
  accessToken : Jwt.Token;
  refreshToken : Jwt.Token;
  user : Js.value
}.

Module RegisterUserInput.
Record t := {
  email : string;
  password : string;
  first_name : string;
  last_name : string;
  date_of_birth : option string;
  photo_url : option string;
  role : option Role
}.
End RegisterUserInput.

(** [role || "user"] on a nullable column *)
Definition role_or_user (r : option Role) : Role :=
  match r with Some r => r | None => RoleUser end.

(** [x || null] on an optional string: the empty string is falsy too. *)
Definition or_null (x : option string) : option string :=
  match x with
  | Some s => if String.eqb s "" then None else Some s
  | None => None
  end.

(** A nullable column read from a row. *)
Definition of_column (x : option string) : Js.value :=
  match x with Some s => Js.Str s | None => Js.Null end.

(** An optional field of the request body. *)
Definition of_optional (x : option string) : Js.value :=
  match x with Some s => Js.Str s | None => Js.Undefined end.

Definition of_role (r : Role) : Js.value := Js.Str (role_name r).

(** The [catch] block shared by the three services, up to its message. *)
Definition rethrow {A} (message : string) (error : Js.value) : M A :=
  if negb (Js.instanceof error AppError_prototype) then
    throw (new_AppError message 500)
  else throw error.

Section Services.

Context {hasher : PasswordHasher}.
Variable env : Env.

Let cfg := config env.

(** The [try] block of [loginUserService]. *)
Definition login_try (email password : string) : M AuthResult :=
  result <- pool_query env 0 (select_users_by_email email) ;;
  match hd_error result with
  | None => throw (new_AppError "Login Failed" 404)
  | Some user =>
    if negb (bcrypt_compare password (User.password user)) then
      throw (new_AppError "Login Failed" 404)
    else
      _ <- pool_query env 1 (update_last_login (User.id user) (now env)) ;;
      let payload :=
        {| Jwt.userId := User.id user;
           Jwt.email := User.email user;
           Jwt.role := Some (role_or_user (User.role user)) |} in
      if Jwt.falsy (JWT_SECRET_ACCESS cfg) then
        throw (Js.new_Error "JWT_SECRET_ACCESS is not defined")
      else
        accessToken <- lift (Jwt.sign payload (JWT_SECRET_ACCESS cfg)
                               (JWT_EXPIRES_IN_SHORT cfg) (now env)) ;;
        refreshToken <- lift (Jwt.sign payload (JWT_SECRET_REFRESH cfg)
                                (JWT_EXPIRES_IN_LONG cfg) (now env)) ;;
        ret {| accessToken := accessToken;
               refreshToken := refreshToken;
               user := Js.literal
                 [("id", Js.Num (User.id user));
                  ("email", Js.Str (User.email user));
                  ("first_name", Js.Str (User.first_name user));
                  ("last_name", Js.Str (User.last_name user));
                  ("date_of_birth", of_column (User.date_of_birth user));
                  ("photo_url", of_column (User.photo_url user));
                  ("role", of_role (role_or_user (User.role user)))] |}
  end.

Definition loginUserService (email password : string) : M AuthResult :=
  try_catch (login_try email password) (rethrow "Failed to log in user").

(** The [try] block of [registerUserService]. *)
Definition register_try (input : RegisterUserInput.t) : M AuthResult :=
  let email := RegisterUserInput.email input in
  let password := RegisterUserInput.password input in
  let first_name := RegisterUserInput.first_name input in
  let last_name := RegisterUserInput.last_name input in
  let date_of_birth := RegisterUserInput.date_of_birth input in
  let photo_url := RegisterUserInput.photo_url input in
  let role := RegisterUserInput.role input in
  existing <- pool_query env 0 (select_id_by_email email) ;;
  if (0 <? length existing)%nat then
    throw (new_AppError "Email already registered" 409)
  else
    let hashedPassword := bcrypt_hash password 10 (salt env) in
    result <- pool_query env 1
                (insert_user email hashedPassword first_name last_name
                             (or_null date_of_birth) (or_null photo_url)) ;;
    match hd_error result with
    | None =>
      throw (Js.new_TypeError "Cannot read properties of undefined (reading 'id')")
    | Some id =>
      let payload :=
        {| Jwt.userId := id; Jwt.email := email; Jwt.role := role |} in
      accessToken <- lift (Jwt.sign payload (JWT_SECRET_ACCESS cfg)
                             (JWT_EXPIRES_IN_SHORT cfg) (now env)) ;;
      refreshToken <- lift (Jwt.sign payload (JWT_SECRET_REFRESH cfg)
                              (JWT_EXPIRES_IN_LONG cfg) (now env)) ;;
      ret {| accessToken := accessToken;
             refreshToken := refreshToken;
             user := Js.literal
               [("id", Js.Num id);
                ("email", Js.Str email);
                ("first_name", Js.Str first_name);
                ("last_name", Js.Str last_name);
                ("date_of_birth", of_optional date_of_birth);
                ("photo_url", of_optional photo_url)] |}
    end.

Definition registerUserService (input : RegisterUserInput.t) : M AuthResult :=
  try_catch (register_try input) (rethrow "Failed to register user").

(** The [try] block of [refreshTokenService]. *)
Definition refresh_try (refreshToken : Jwt.Compact) : M AuthResult :=
  payload <- lift (Jwt.verify refreshToken (JWT_SECRET_REFRESH cfg) (now env)) ;;
  result <- pool_query env 0
              (select_users_by_id (Jwt.userId (Jwt.payload payload))) ;;
  match hd_error result with
  | None => throw (new_AppError "Login Failed" 404)
  | Some user =>
    let newPayload :=
      {| Jwt.userId := User.id user;
         Jwt.email := User.email user;
         Jwt.role := Some (role_or_user (User.role user)) |} in
    newAccessToken <- lift (Jwt.sign newPayload (JWT_SECRET_ACCESS cfg)
                              (JWT_EXPIRES_IN_LONG cfg) (now env)) ;;
    newRefreshToken <- lift (Jwt.sign newPayload (JWT_SECRET_REFRESH cfg)
                               (JWT_EXPIRES_IN_SHORT cfg) (now env)) ;;
    ret {| accessToken := newAccessToken;
           refreshToken := newRefreshToken;
           user := Js.literal
             [("id", Js.Num (User.id user));
              ("email", Js.Str (User.email user));
              ("first_name", Js.Str (User.first_name user));
              ("last_name", Js.Str (User.last_name user));
              ("date_of_birth", of_column (User.date_of_birth user));
              ("photo_url", of_column (User.photo_url user));
              ("role", of_role (role_or_user (User.role user)))] |}
  end.

Definition refreshTokenService (refreshToken : Jwt.Compact) : M AuthResult :=
  try_catch (refresh_try refreshToken) (rethrow "Failed to refresh token").

End Services.

(** ** A concrete setting to run the services in *)

(** [s] ends with [suffix]. *)
Definition ends_with (suffix s : string) : bool :=
  String.eqb
    (substring (String.length s - String.length suffix)
               (String.length suffix) s)
    suffix.

(** A stand-in hasher for running the services: the "hash" is the salt, a
    separator and the data. *)
Definition toy_hasher : PasswordHasher :=
  {| bcrypt_hash := fun data _ salt => salt ++ "$" ++ data;
     bcrypt_compare := fun data hash => ends_with ("$" ++ data) hash |}.

Definition sample_config : Config :=
  {| JWT_SECRET_ACCESS := Some "access-secret";
     JWT_SECRET_REFRESH := Some "refresh-secret";
     JWT_EXPIRES_IN_SHORT := 900;
     JWT_EXPIRES_IN_LONG := 604800 |}.

Definition sample_env : Env :=
  {| config := sample_config; now := 1000; salt := "c2FsdA";
     query_error := fun _ => None |}.

Definition empty_db : Db := {| users := []; users_id_seq := 1 |}.

(** [{email: "a@x.com", password: "pw123456", first_name: "A",
     last_name: "B", date_of_birth: "2000-01-01"}] *)
Definition sample_input : RegisterUserInput.t :=
  {| RegisterUserInput.email := "a@x.com";
     RegisterUserInput.password := "pw123456";
     RegisterUserInput.first_name := "A";
     RegisterUserInput.last_name := "B";
     RegisterUserInput.date_of_birth := Some "2000-01-01";
     RegisterUserInput.photo_url := None;
     RegisterUserInput.role := None |}.

(** The table after [sample_input] has registered. *)
Definition one_user_db : Db :=
  Eval vm_compute in
    snd (registerUserService (hasher := toy_hasher) sample_env sample_input
                             empty_db).

(** The access secret is missing from the environment. *)
Definition no_access_secret_env : Env :=
  {| config := {| JWT_SECRET_ACCESS := None;
                  JWT_SECRET_REFRESH := Some "refresh-secret";
                  JWT_EXPIRES_IN_SHORT := 900;
                  JWT_EXPIRES_IN_LONG := 604800 |};
     now := 1000; salt := "c2FsdA"; query_error := fun _ => None |}.

(** The refresh token that [sample_env] issues to user 1 at login. *)
Definition sample_refresh_token : Jwt.Token :=
  let c := {| Jwt.payload := {| Jwt.userId := 1; Jwt.email := "a@x.com";
                                Jwt.role := Some RoleUser |};
              Jwt.iat := 1000; Jwt.exp := 605800 |} in
  {| Jwt.claims := c; Jwt.signature := Jwt.HS256 "refresh-secret" c |}.

(** The same token with the subject changed and the signature kept. *)
Definition tampered_refresh_token : Jwt.Token :=
  {| Jwt.claims :=
       {| Jwt.payload := {| Jwt.userId := 2; Jwt.email := "a@x.com";
                            Jwt.role := Some RoleAdmin |};
          Jwt.iat := 1000; Jwt.exp := 605800 |};
     Jwt.signature := Jwt.signature sample_refresh_token |}.

(** [sample_env] a little later, and after the refresh token has run out. *)
Definition later_env : Env :=
  {| config := sample_config; now := 2000; salt := "c2FsdA";
     query_error := fun _ => None |}.

Definition much_later_env : Env :=
  {| config := sample_config; now := 700000; salt := "c2FsdA";
     query_error := fun _ => None |}.

(** The store refuses connections. *)
Definition store_down_env : Env :=
  {| config := sample_config; now := 1000; salt := "c2FsdA";
     query_error := fun _ => Some "connect ECONNREFUSED 10.0.0.5:5432" |}.

(** The first row with the given email, which is [rows[0]] of the lookup. *)
Definition first_with_email (email : string) (db : Db) : option User.t :=
  find (fun u => String.eqb (User.email u) email) (users db).

Definition first_with_id (id : Z) (db : Db) : option User.t :=
  find (fun u => User.id u =? id) (users db).

(** The number of rows that hold the given email. *)
Definition rows_with_email (email : string) (db : Db) : nat :=
  length (filter (fun u => String.eqb (User.email u) email) (users db)).

(** The store's invariant: no two rows share an email. *)
Definition unique_emails (db : Db) : Prop :=
  NoDup (map User.email (users db)).

(** [u'] is [u] up to [last_login]. *)
Definition only_last_login_differs (u u' : User.t) : Prop :=
  User.id u' = User.id u
  /\ User.email u' = User.email u
  /\ User.password u' = User.password u
  /\ User.first_name u' = User.first_name u
  /\ User.last_name u' = User.last_name u
  /\ User.date_of_birth u' = User.date_of_birth u
  /\ User.photo_url u' = User.photo_url u
  /\ User.role u' = User.role u.

(** The credentials are rejected: no row has the email, or the password
    does not match the hash stored in the first row that has it. *)
Definition rejected `{PasswordHasher} (email password : string) (db : Db)
    : Prop :=
  match first_with_email email db with
  | None => True
  | Some user => bcrypt_compare password (User.password user) = false
  end.

(** The table after [UPDATE users SET last_login = NOW() WHERE id = $1]. *)
Definition touch (id : Z) (now : Z) (db : Db) : Db :=
  snd (update_last_login id now db).

(** ** middlewares/role.middleware.js *)


(** The part of the request the middleware reads. *)
Module Request.
Record t := { user : Js.value }.
End Request.




(** ** The table as the services leave it *)

(** The table after the [INSERT] of [registerUserService] for [input]. *)
Definition with_registered `{PasswordHasher} (env : Env)
    (input : RegisterUserInput.t) (db : Db) : Db :=
  {| users := users db ++
       [inserted_row (users_id_seq db) (RegisterUserInput.email input)
          (bcrypt_hash (RegisterUserInput.password input) 10 (salt env))
          (RegisterUserInput.first_name input)
          (RegisterUserInput.last_name input)
          (or_null (RegisterUserInput.date_of_birth input))
          (or_null (RegisterUserInput.photo_url input))];
     users_id_seq := users_id_seq db + 1 |}.

(** The request body with another role. *)
Definition with_role (role : option Role) (input : RegisterUserInput.t)
    : RegisterUserInput.t :=
  {| RegisterUserInput.email := RegisterUserInput.email input;
     RegisterUserInput.password := RegisterUserInput.password input;
     RegisterUserInput.first_name := RegisterUserInput.first_name input;
     RegisterUserInput.last_name := RegisterUserInput.last_name input;
     RegisterUserInput.date_of_birth := RegisterUserInput.date_of_birth input;
     RegisterUserInput.photo_url := RegisterUserInput.photo_url input;
     RegisterUserInput.role := role |}.

(** No two rows share an id, and the sequence is ahead of every id. *)
Definition ids_fresh (db : Db) : Prop :=
  NoDup (map User.id (users db))
  /\ Forall (fun u => User.id u < users_id_seq db) (users db).

(** The table is well formed: unique emails, unique ids below the sequence. *)
Definition store_ok (db : Db) : Prop := unique_emails db /\ ids_fresh db.

(** Both signing secrets are set. *)
Definition secrets_set (cfg : Config) : Prop :=
  Jwt.falsy (JWT_SECRET_ACCESS cfg) = false
  /\ Jwt.falsy (JWT_SECRET_REFRESH cfg) = false.

(** The payload the services sign for a row. *)
Definition payload_of (m : User.t) : Jwt.Payload :=
  {| Jwt.userId := User.id m; Jwt.email := User.email m;
     Jwt.role := Some (role_or_user (User.role m)) |}.

(** [sample_env] without the refresh secret. *)
Definition no_refresh_secret_env : Env :=
  {| config := {| JWT_SECRET_ACCESS := Some "access-secret";
                  JWT_SECRET_REFRESH := None;
                  JWT_EXPIRES_IN_SHORT := 900;
                  JWT_EXPIRES_IN_LONG := 604800 |};
     now := 1000; salt := "c2FsdA"; query_error := fun _ => None |}.

(** The generic error of register. *)
Definition register_failed : Js.value :=
  new_AppError "Failed to register user" 500.

(** The generic error of refresh. *)
Definition refresh_failed : Js.value :=
  new_AppError "Failed to refresh token" 500.

(** * Properties *)

(** ** Lists and strings *)

Lemma hd_error_filter {A} (f : A -> bool) (l : list A) :
  hd_error (filter f l) = find f l.
Proof.
  induction l as [|a l IH]; simpl; [reflexivity|].
  destruct (f a); [reflexivity | exact IH].
Qed.

(** ** isAppError *)

Lemma is_null_false (v : Js.value) : is_null v = false <-> v <> Js.Null.
Proof. destruct v; simpl; split; congruence. Qed.

(** C10: [isAppError v] holds exactly when [v] is an instance of [AppError] or
    a non-null value of type "object" with both a "message" and a
    "statusCode" property; a plain object literal with the two properties is
    accepted although it is no instance of [AppError]. *)
Theorem isAppError_iff :
  (forall v : Js.value,
     isAppError v = true <->
     Js.instanceof v AppError_prototype = true
     \/ (Js.typeof v = "object" /\ v <> Js.Null
         /\ Js.has_property "message" v = true
         /\ Js.has_property "statusCode" v = true))
  /\ (forall (message statusCode : Js.value) (rest : list (string * Js.value)),
        let plain :=
          Js.literal (("message", message) :: ("statusCode", statusCode) :: rest) in
        Js.instanceof plain AppError_prototype = false
        /\ isAppError plain = true).
Proof.
  split.
  - intro v. unfold isAppError.
    rewrite orb_true_iff, !andb_true_iff, String.eqb_eq, negb_true_iff,
      is_null_false.
    tauto.
  - intros message statusCode rest plain. split; reflexivity.
Qed.

Lemma isAppError_new_AppError (message : string) (statusCode : Z) :
  isAppError (new_AppError message statusCode) = true.
Proof. reflexivity. Qed.

Lemma new_AppError_fields (message : string) (statusCode : Z) :
  Js.get (new_AppError message statusCode) "message" = Js.Str message
  /\ Js.get (new_AppError message statusCode) "statusCode" = Js.Num statusCode.
Proof. split; reflexivity. Qed.

Lemma new_AppError_inj (m m' : string) (c c' : Z) :
  new_AppError m c = new_AppError m' c' -> m = m' /\ c = c'.
Proof. intro Heq. injection Heq as -> ->. split; reflexivity. Qed.

(** A function with the two properties is not of type "object". *)
Example isAppError_function :
  isAppError (Js.Function [Js.Object_prototype]
                [("message", Js.Str "m"); ("statusCode", Js.Num 400)]) = false.
Proof. reflexivity. Qed.

Example isAppError_null : isAppError Js.Null = false.
Proof. reflexivity. Qed.

(** ** The shared [catch] block *)

Ltac unfold_monad :=
  unfold try_catch, bind, pool_query, lift, ret, throw in *.

Lemma rethrow_eq {A} (message : string) (e : Js.value) (db : Db) :
  @rethrow A message e db =
  (Threw (if Js.instanceof e AppError_prototype then e
          else new_AppError message 500), db).
Proof. unfold rethrow, throw. destruct (Js.instanceof e _); reflexivity. Qed.

Lemma try_catch_threw {A} (m : M A) (message : string) (db db' : Db)
    (e : Js.value) :
  m db = (Threw e, db') ->
  try_catch m (rethrow message) db =
  (Threw (if Js.instanceof e AppError_prototype then e
          else new_AppError message 500), db').
Proof. intro Hm. unfold try_catch. rewrite Hm. apply rethrow_eq. Qed.

Lemma try_catch_returned {A} (m : M A) (message : string) (db db' : Db)
    (a : A) :
  try_catch m (rethrow message) db = (Returned a, db') ->
  m db = (Returned a, db').
Proof.
  unfold try_catch. destruct (m db) as [[a'|e] db1]; [congruence|].
  rewrite rethrow_eq. discriminate.
Qed.

(** C6: in each of the three services, an error thrown inside the [try]
    block that is an [AppError] reaches the caller as it is, and any other
    error reaches the caller as the service's fixed [AppError] of status 500,
    whatever the original error was. *)
Theorem services_rethrow `{PasswordHasher} (env : Env) (db db' : Db)
    (e : Js.value) :
  (forall email password,
      login_try env email password db = (Threw e, db') ->
      loginUserService env email password db =
      (Threw (if Js.instanceof e AppError_prototype then e
              else new_AppError "Failed to log in user" 500), db'))
  /\ (forall input,
      register_try env input db = (Threw e, db') ->
      registerUserService env input db =
      (Threw (if Js.instanceof e AppError_prototype then e
              else new_AppError "Failed to register user" 500), db'))
  /\ (forall refreshToken,
      refresh_try env refreshToken db = (Threw e, db') ->
      refreshTokenService env refreshToken db =
      (Threw (if Js.instanceof e AppError_prototype then e
              else new_AppError "Failed to refresh token" 500), db')).
Proof.
  repeat split; intros; now apply try_catch_threw.
Qed.

Lemma services_rethrow_witness :
  loginUserService (hasher := toy_hasher) store_down_env "a@x.com" "pw123456"
                   one_user_db
  = (Threw (new_AppError "Failed to log in user" 500), one_user_db)
  /\ loginUserService (hasher := toy_hasher) sample_env "a@x.com" "wrong"
                      one_user_db
     = (Threw (new_AppError "Login Failed" 404), one_user_db).
Proof.
  split.
  - exact (proj1 (services_rethrow (H := toy_hasher) store_down_env one_user_db
                    one_user_db
                    (Js.new_Error "connect ECONNREFUSED 10.0.0.5:5432"))
                 "a@x.com" "pw123456" eq_refl).
  - exact (proj1 (services_rethrow (H := toy_hasher) sample_env one_user_db
                    one_user_db (new_AppError "Login Failed" 404))
                 "a@x.com" "wrong" eq_refl).
Defined.

(** ** Login *)

Lemma login_try_rejected `{PasswordHasher} (env : Env)
    (email password : string) (db : Db) :
  query_error env 0 = None ->
  rejected email password db ->
  login_try env email password db =
  (Threw (new_AppError "Login Failed" 404), db).
Proof.
  unfold rejected, first_with_email, login_try. intros Hq Hrej.
  unfold_monad. rewrite Hq.
  unfold select_users_by_email. rewrite hd_error_filter.
  destruct (find _ (users db)) as [user|]; [|reflexivity].
  rewrite Hrej. reflexivity.
Qed.

(** C4: when the lookup answers, a login whose email matches no row and a
    login whose password does not match the stored hash of the matched row
    end the same way: the [AppError] "Login Failed" with status 404 is
    thrown, nothing is returned (so no token), and the table is as before. *)
Theorem login_failure_indistinguishable `{PasswordHasher} (env : Env)
    (email password : string) (db : Db) :
  query_error env 0 = None ->
  (first_with_email email db = None ->
   loginUserService env email password db =
   (Threw (new_AppError "Login Failed" 404), db))
  /\ (forall user,
       first_with_email email db = Some user ->
       bcrypt_compare password (User.password user) = false ->
       loginUserService env email password db =
       (Threw (new_AppError "Login Failed" 404), db)).
Proof.
  intro Hq. split.
  - intro Habsent. unfold loginUserService.
    rewrite (try_catch_threw _ _ db db (new_AppError "Login Failed" 404));
      [reflexivity|].
    apply login_try_rejected; [exact Hq|].
    unfold rejected. now rewrite Habsent.
  - intros user Hmatch Hcmp. unfold loginUserService.
    rewrite (try_catch_threw _ _ db db (new_AppError "Login Failed" 404));
      [reflexivity|].
    apply login_try_rejected; [exact Hq|].
    unfold rejected. now rewrite Hmatch.
Qed.

Lemma login_failure_indistinguishable_witness :
  loginUserService (hasher := toy_hasher) sample_env "b@x.com" "pw123456"
                   one_user_db
  = (Threw (new_AppError "Login Failed" 404), one_user_db)
  /\ loginUserService (hasher := toy_hasher) sample_env "a@x.com" "wrong"
                      one_user_db
     = (Threw (new_AppError "Login Failed" 404), one_user_db).
Proof.
  split.
  - apply (proj1 (login_failure_indistinguishable (H := toy_hasher) sample_env
                    "b@x.com" "pw123456" one_user_db eq_refl)).
    reflexivity.
  - eapply (proj2 (login_failure_indistinguishable (H := toy_hasher) sample_env
                     "a@x.com" "wrong" one_user_db eq_refl)).
    + reflexivity.
    + reflexivity.
Defined.

Lemma Forall2_map_same {A} (R : A -> A -> Prop) (f : A -> A) (l : list A) :
  (forall x, In x l -> R x (f x)) -> Forall2 R l (map f l).
Proof.
  induction l as [|a l IH]; simpl; intro Hf; constructor.
  - apply Hf. now left.
  - apply IH. intros x Hx. apply Hf. now right.
Qed.

Lemma Forall2_same {A} (R : A -> A -> Prop) (l : list A) :
  (forall x, In x l -> R x x) -> Forall2 R l l.
Proof.
  intro Hr. rewrite <- (map_id l) at 2. now apply Forall2_map_same.
Qed.

Lemma sign_access_returns (p : Jwt.Payload) (secret : option string)
    (expiresIn now : Z) :
  Jwt.falsy secret = false ->
  Jwt.sign p secret expiresIn now =
  Returned
    {| Jwt.claims := {| Jwt.payload := p; Jwt.iat := now;
                        Jwt.exp := now + expiresIn |};
       Jwt.signature :=
         Jwt.HS256 (Jwt.key_of secret)
           {| Jwt.payload := p; Jwt.iat := now; Jwt.exp := now + expiresIn |} |}.
Proof. intro Hs. unfold Jwt.sign. now rewrite Hs. Qed.

Lemma sign_threw_not_AppError (p : Jwt.Payload) (secret : option string)
    (expiresIn now : Z) (e : Js.value) :
  Jwt.sign p secret expiresIn now = Threw e ->
  Js.instanceof e AppError_prototype = false.
Proof.
  unfold Jwt.sign. destruct (Jwt.falsy secret); [|discriminate].
  intro He. injection He as <-. reflexivity.
Qed.

(** Every way a login call can end: the table is untouched and an error is
    thrown, or the credentials were accepted, [last_login] was written, and
    the call returned or failed afterwards with the generic error. *)
Lemma login_outcomes `{PasswordHasher} (env : Env) (email password : string)
    (db : Db) :
  (exists e, loginUserService env email password db = (Threw e, db)
             /\ (e = new_AppError "Login Failed" 404
                 \/ e = new_AppError "Failed to log in user" 500))
  \/ (exists m out,
        first_with_email email db = Some m
        /\ bcrypt_compare password (User.password m) = true
        /\ loginUserService env email password db =
           (out, touch (User.id m) (now env) db)
        /\ (out = Threw (new_AppError "Failed to log in user" 500)
            \/ exists r, out = Returned r)).
Proof.
  unfold loginUserService, login_try, first_with_email.
  unfold_monad. unfold select_users_by_email.
  destruct (query_error env 0) as [m0|].
  { left. eexists. rewrite rethrow_eq. split; [reflexivity|now right]. }
  rewrite hd_error_filter.
  destruct (find _ (users db)) as [m|].
  2:{ left. eexists. rewrite rethrow_eq. split; [reflexivity|now left]. }
  destruct (bcrypt_compare password (User.password m)) eqn:Hcmp; cbn [negb].
  2:{ left. eexists. rewrite rethrow_eq. split; [reflexivity|now left]. }
  destruct (query_error env 1) as [m1|].
  { left. eexists. rewrite rethrow_eq. split; [reflexivity|now right]. }
  right. exists m. cbn [update_last_login].
  destruct (Jwt.falsy (JWT_SECRET_ACCESS (config env))) eqn:Hacc.
  { eexists. rewrite rethrow_eq.
    split; [reflexivity|]. split; [exact Hcmp|]. split; [reflexivity|].
    now left. }
  rewrite (sign_access_returns _ _ _ _ Hacc).
  destruct (Jwt.sign _ (JWT_SECRET_REFRESH (config env)) _ _) as [t|e] eqn:Href.
  - eexists.
    split; [reflexivity|]. split; [exact Hcmp|]. split; [reflexivity|].
    right. eexists. reflexivity.
  - eexists. rewrite rethrow_eq, (sign_threw_not_AppError _ _ _ _ _ Href).
    split; [reflexivity|]. split; [exact Hcmp|]. split; [reflexivity|].
    now left.
Qed.

Lemma only_last_login_differs_refl (u : User.t) : only_last_login_differs u u.
Proof. repeat split. Qed.

Lemma only_last_login_differs_set (now : Z) (u : User.t) :
  only_last_login_differs u (User.set_last_login now u).
Proof. repeat split. Qed.

Lemma find_map_preserved {A} (p : A -> bool) (f : A -> A) (l : list A) :
  (forall x, p (f x) = p x) ->
  find p (map f l) = option_map f (find p l).
Proof.
  intro Hp. induction l as [|a l IH]; simpl; [reflexivity|].
  rewrite Hp. destruct (p a); [reflexivity | exact IH].
Qed.

Lemma first_with_email_touch (email : string) (m : User.t) (now : Z)
    (db : Db) :
  first_with_email email db = Some m ->
  first_with_email email (touch (User.id m) now db) =
  Some (User.set_last_login now m).
Proof.
  unfold first_with_email, touch. cbn [update_last_login snd users].
  intro Hm. rewrite find_map_preserved.
  - rewrite Hm. cbn [option_map]. now rewrite Z.eqb_refl.
  - intro x. now destruct (User.id x =? User.id m).
Qed.

Lemma touch_frame (m : User.t) (now : Z) (db : Db) :
  Forall2 (fun u u' => only_last_login_differs u u'
                       /\ (u' <> u -> User.id u = User.id m))
          (users db) (users (touch (User.id m) now db)).
Proof.
  unfold touch. cbn [update_last_login snd users].
  apply Forall2_map_same. intros u _.
  destruct (User.id u =? User.id m) eqn:Hid.
  - split; [apply only_last_login_differs_set|]. intros _. now apply Z.eqb_eq.
  - split; [apply only_last_login_differs_refl|]. congruence.
Qed.

(** C9 (as amended): login neither adds nor removes a row and changes no
    field other than [last_login]; a row it changes has the id of the matched
    user; a call that throws the 404 "Login Failed" error leaves the table as
    it was; a call that returns has set [last_login] of the matched user to
    the current time. *)
Theorem login_frame `{PasswordHasher} (env : Env) (email password : string)
    (db : Db) :
  let out := fst (loginUserService env email password db) in
  let db' := snd (loginUserService env email password db) in
  users_id_seq db' = users_id_seq db
  /\ Forall2 (fun u u' =>
               only_last_login_differs u u'
               /\ (u' <> u ->
                   exists m, first_with_email email db = Some m
                             /\ User.id u = User.id m))
             (users db) (users db')
  /\ (out = Threw (new_AppError "Login Failed" 404) -> db' = db)
  /\ (forall r, out = Returned r ->
       exists m, first_with_email email db = Some m
                 /\ db' = touch (User.id m) (now env) db
                 /\ first_with_email email db' =
                    Some (User.set_last_login (now env) m)).
Proof.
  cbv zeta.
  destruct (login_outcomes env email password db)
    as [(e & -> & He) | (m & out & Hm & Hcmp & -> & Hout)]; cbn [fst snd].
  - split; [reflexivity|]. split.
    + apply Forall2_same. intros u _.
      split; [apply only_last_login_differs_refl | congruence].
    + split; [reflexivity | discriminate].
  - split; [reflexivity|]. split.
    + eapply Forall2_impl; [|apply touch_frame].
      intros u u' [Hsame Hid]. split; [exact Hsame|].
      intro Hne. exists m. split; [exact Hm | exact (Hid Hne)].
    + split.
      * intros ->. destruct Hout as [Hout | [r Hout]]; discriminate.
      * intros r _. exists m. split; [exact Hm|]. split; [reflexivity|].
        now apply first_with_email_touch.
Qed.

(** C9 as stated fails: with the access secret missing, the call has written
    [last_login] by the time it throws. *)
Lemma login_throws_after_update :
  loginUserService (hasher := toy_hasher) no_access_secret_env
                   "a@x.com" "pw123456" one_user_db
  = (Threw (new_AppError "Failed to log in user" 500),
     touch 1 1000 one_user_db)
  /\ touch 1 1000 one_user_db <> one_user_db.
Proof.
  split; [reflexivity|]. vm_compute. discriminate.
Qed.

(** ** Register *)

Lemma existsb_filter_nil {A} (f : A -> bool) (l : list A) :
  filter f l = [] -> existsb f l = false.
Proof.
  induction l as [|a l IH]; simpl; [reflexivity|].
  destruct (f a); [discriminate | exact IH].
Qed.

Lemma filter_app_fresh {A} (f : A -> bool) (l : list A) (a : A) :
  filter f l = [] -> f a = true -> filter f (l ++ [a]) = [a].
Proof.
  intros Hl Ha. rewrite filter_app, Hl. simpl. now rewrite Ha.
Qed.

(** The token payload and the projection [registerUserService] builds. *)
Lemma register_returned `{PasswordHasher} (env : Env)
    (input : RegisterUserInput.t) (db db' : Db) (r : AuthResult) :
  registerUserService env input db = (Returned r, db') ->
  let email := RegisterUserInput.email input in
  let id := users_id_seq db in
  let payload :=
    {| Jwt.userId := id; Jwt.email := email;
       Jwt.role := RegisterUserInput.role input |} in
  filter (fun u => String.eqb (User.email u) email) (users db) = []
  /\ db' =
     {| users := users db ++
          [inserted_row id email
             (bcrypt_hash (RegisterUserInput.password input) 10 (salt env))
             (RegisterUserInput.first_name input)
             (RegisterUserInput.last_name input)
             (or_null (RegisterUserInput.date_of_birth input))
             (or_null (RegisterUserInput.photo_url input))];
        users_id_seq := id + 1 |}
  /\ Jwt.sign payload (JWT_SECRET_ACCESS (config env))
              (JWT_EXPIRES_IN_SHORT (config env)) (now env)
     = Returned (accessToken r)
  /\ Jwt.sign payload (JWT_SECRET_REFRESH (config env))
              (JWT_EXPIRES_IN_LONG (config env)) (now env)
     = Returned (refreshToken r)
  /\ user r =
     Js.literal
       [("id", Js.Num id);
        ("email", Js.Str email);
        ("first_name", Js.Str (RegisterUserInput.first_name input));
        ("last_name", Js.Str (RegisterUserInput.last_name input));
        ("date_of_birth", of_optional (RegisterUserInput.date_of_birth input));
        ("photo_url", of_optional (RegisterUserInput.photo_url input))].
Proof.
  intro Hr. apply try_catch_returned in Hr. revert Hr.
  unfold register_try. unfold_monad. cbv zeta.
  destruct (query_error env 0); [discriminate|].
  unfold select_id_by_email.
  destruct (filter _ (users db)) as [|u l] eqn:Hfresh; [|discriminate].
  cbn [map length Nat.ltb Nat.leb].
  destruct (query_error env 1); [discriminate|].
  unfold insert_user. rewrite (existsb_filter_nil _ _ Hfresh). cbn [hd_error].
  destruct (Jwt.sign _ (JWT_SECRET_ACCESS _) _ _) as [a|]; [|discriminate].
  destruct (Jwt.sign _ (JWT_SECRET_REFRESH _) _ _) as [b|]; [|discriminate].
  intro Hr. injection Hr as <- <-. repeat split.
Qed.

Lemma length_append (a b : string) :
  String.length (a ++ b)%string = (String.length a + String.length b)%nat.
Proof. induction a as [|c a IH]; simpl; [reflexivity | now rewrite IH]. Qed.

Lemma substring_all (b : string) : substring 0 (String.length b) b = b.
Proof. induction b as [|c b IH]; simpl; [reflexivity | now rewrite IH]. Qed.

Lemma substring_after (a b : string) :
  substring (String.length a) (String.length b) (a ++ b)%string = b.
Proof. induction a as [|c a IH]; simpl; [apply substring_all | exact IH]. Qed.

Lemma ends_with_append (a b : string) : ends_with b (a ++ b)%string = true.
Proof.
  unfold ends_with. rewrite length_append.
  replace (String.length a + String.length b - String.length b)%nat
    with (String.length a) by lia.
  rewrite substring_after. apply String.eqb_refl.
Qed.

(** The stand-in hasher has what the service relies on. *)
Lemma toy_hasher_laws : HasherLaws toy_hasher.
Proof.
  split; cbn [bcrypt_hash bcrypt_compare toy_hasher].
  - intros data _ salt. apply ends_with_append.
  - intros data _ salt Heq. apply (f_equal String.length) in Heq.
    rewrite !length_append in Heq. simpl in Heq. lia.
Qed.

(** C7: after a registration that returns, the table holds exactly one row
    with the email, and the password of that row is the salted hash of the
    plaintext: it verifies against the plaintext and differs from it. *)
Theorem register_stores_salted_hash {hasher : PasswordHasher}
    {laws : HasherLaws hasher} (env : Env) (input : RegisterUserInput.t)
    (db db' : Db) (r : AuthResult) :
  registerUserService env input db = (Returned r, db') ->
  exists row,
    filter (fun u => String.eqb (User.email u) (RegisterUserInput.email input))
           (users db') = [row]
    /\ User.password row =
       bcrypt_hash (RegisterUserInput.password input) 10 (salt env)
    /\ bcrypt_compare (RegisterUserInput.password input) (User.password row)
       = true
    /\ User.password row <> RegisterUserInput.password input.
Proof.
  intro Hr. apply register_returned in Hr. cbv zeta in Hr.
  destruct Hr as (Hfresh & -> & _).
  eexists. cbn [users]. split.
  - apply filter_app_fresh; [exact Hfresh|]. apply String.eqb_refl.
  - cbn [inserted_row User.password]. split; [reflexivity|].
    split; [apply compare_hash | apply hash_not_plain].
Qed.

Lemma register_stores_salted_hash_witness :
  exists row,
    filter (fun u => String.eqb (User.email u) "a@x.com") (users one_user_db)
    = [row]
    /\ User.password row = "c2FsdA$pw123456"%string
    /\ bcrypt_compare (PasswordHasher := toy_hasher) "pw123456"
                      (User.password row) = true
    /\ User.password row <> "pw123456"%string.
Proof.
  exact (register_stores_salted_hash (laws := toy_hasher_laws) sample_env
           sample_input empty_db one_user_db _ eq_refl).
Defined.

Lemma filter_absent (l : list User.t) (e : string) :
  ~ In e (map User.email l) ->
  filter (fun u => String.eqb (User.email u) e) l = [].
Proof.
  induction l as [|a l IH]; simpl; [reflexivity|]. intro Hnot.
  destruct (String.eqb_spec (User.email a) e) as [Heq|_].
  - exfalso. apply Hnot. now left.
  - apply IH. intro Hin. apply Hnot. now right.
Qed.

Lemma unique_email_one_row (l : list User.t) (e : string) :
  NoDup (map User.email l) ->
  In e (map User.email l) ->
  length (filter (fun u => String.eqb (User.email u) e) l) = 1%nat.
Proof.
  induction l as [|a l IH]; simpl; [contradiction|].
  intros Hnodup Hin. inversion Hnodup as [|x xs Hx Hxs]; subst.
  destruct (String.eqb_spec (User.email a) e) as [Heq|Hne].
  - subst e. simpl. now rewrite filter_absent.
  - destruct Hin as [Hin|Hin]; [contradiction|]. now apply IH.
Qed.

Lemma filter_present (l : list User.t) (e : string) :
  In e (map User.email l) ->
  (0 <? length (filter (fun u => String.eqb (User.email u) e) l))%nat = true.
Proof.
  induction l as [|a l IH]; simpl; [contradiction|]. intros [Heq|Hin].
  - rewrite Heq, String.eqb_refl. reflexivity.
  - destruct (String.eqb (User.email a) e); [reflexivity | now apply IH].
Qed.

Lemma register_existing_email `{PasswordHasher} (env : Env)
    (input : RegisterUserInput.t) (db : Db) :
  query_error env 0 = None ->
  In (RegisterUserInput.email input) (map User.email (users db)) ->
  registerUserService env input db =
  (Threw (new_AppError "Email already registered" 409), db).
Proof.
  intros Hq Hin. unfold registerUserService.
  rewrite (try_catch_threw _ _ db db
             (new_AppError "Email already registered" 409));
    [reflexivity|].
  unfold register_try. unfold_monad. cbv zeta. rewrite Hq.
  unfold select_id_by_email. rewrite length_map, (filter_present _ _ Hin).
  reflexivity.
Qed.

(** C5: when the lookup answers and a row already holds the email, register
    throws the [AppError] "Email already registered" with status 409 and
    leaves the table as it was; the table, in which emails are unique, then
    has exactly one row for that email. *)
Theorem register_conflict `{PasswordHasher} (env : Env)
    (input : RegisterUserInput.t) (db : Db) :
  query_error env 0 = None ->
  In (RegisterUserInput.email input) (map User.email (users db)) ->
  let result := registerUserService env input db in
  fst result = Threw (new_AppError "Email already registered" 409)
  /\ snd result = db
  /\ (unique_emails db ->
      rows_with_email (RegisterUserInput.email input) (snd result) = 1%nat).
Proof.
  intros Hq Hin result. unfold result.
  rewrite (register_existing_email env input db Hq Hin).
  cbn [fst snd]. repeat split.
  intro Hunique. exact (unique_email_one_row _ _ Hunique Hin).
Qed.

Lemma register_conflict_witness :
  let result :=
    registerUserService (hasher := toy_hasher) sample_env sample_input
                        one_user_db in
  fst result = Threw (new_AppError "Email already registered" 409)
  /\ snd result = one_user_db
  /\ rows_with_email "a@x.com" (snd result) = 1%nat.
Proof.
  destruct (register_conflict (H := toy_hasher) sample_env sample_input
              one_user_db eq_refl (or_introl eq_refl))
    as (Hout & Hdb & Hone).
  split; [exact Hout|]. split; [exact Hdb|].
  apply Hone. repeat constructor. simpl. tauto.
Defined.

(** Register preserves the store's invariant. *)
Lemma register_keeps_unique_emails `{PasswordHasher} (env : Env)
    (input : RegisterUserInput.t) (db db' : Db) (r : AuthResult) :
  unique_emails db ->
  registerUserService env input db = (Returned r, db') ->
  unique_emails db'
  /\ In (RegisterUserInput.email input) (map User.email (users db')).
Proof.
  unfold unique_emails. intros Hunique Hr.
  apply register_returned in Hr. cbv zeta in Hr.
  destruct Hr as (Hfresh & -> & _). cbn [users].
  rewrite map_app. cbn [map inserted_row User.email]. split.
  - apply NoDup_app; [exact Hunique | repeat constructor; simpl; tauto |].
    intros e He [<-|[]].
    apply in_map_iff in He. destruct He as (u & Hu & Hin).
    assert (Hf : In u (filter (fun u => String.eqb (User.email u)
                                 (RegisterUserInput.email input))
                              (users db))).
    { apply filter_In. split; [exact Hin|]. now apply String.eqb_eq. }
    rewrite Hfresh in Hf. exact Hf.
  - apply in_or_app. right. now left.
Qed.

(** X12: registering the same email twice: the second attempt is a conflict
    and the table keeps one row for the email. *)
Lemma register_twice `{PasswordHasher} (env env2 : Env)
    (input input2 : RegisterUserInput.t) (db db' : Db) (r : AuthResult) :
  unique_emails db ->
  registerUserService env input db = (Returned r, db') ->
  query_error env2 0 = None ->
  RegisterUserInput.email input2 = RegisterUserInput.email input ->
  registerUserService env2 input2 db' =
  (Threw (new_AppError "Email already registered" 409), db')
  /\ rows_with_email (RegisterUserInput.email input) db' = 1%nat.
Proof.
  intros Hunique Hr Hq Hsame.
  destruct (register_keeps_unique_emails env input db db' r Hunique Hr)
    as [Hunique' Hin].
  split.
  - apply register_existing_email; [exact Hq|]. now rewrite Hsame.
  - now apply unique_email_one_row.
Qed.

(** The role given to register goes into the payload as it is, and the
    projection has no "role" at all. *)
Lemma register_role_not_defaulted `{PasswordHasher} (env : Env)
    (input : RegisterUserInput.t) (db db' : Db) (r : AuthResult) :
  registerUserService env input db = (Returned r, db') ->
  Jwt.role (Jwt.payload (Jwt.claims (accessToken r)))
  = RegisterUserInput.role input
  /\ Jwt.role (Jwt.payload (Jwt.claims (refreshToken r)))
     = RegisterUserInput.role input
  /\ Js.has_property "role" (user r) = false.
Proof.
  intro Hr. apply register_returned in Hr. cbv zeta in Hr.
  destruct Hr as (_ & _ & Ha & Hb & ->).
  unfold Jwt.sign in Ha, Hb.
  destruct (Jwt.falsy (JWT_SECRET_ACCESS _)); [discriminate|].
  destruct (Jwt.falsy (JWT_SECRET_REFRESH _)); [discriminate|].
  injection Ha as <-. injection Hb as <-. repeat split.
Qed.

(** C3 fails on the code: registering [sample_input], which has no role,
    into the empty table returns tokens whose payload has no role and a user
    projection without a "role" property. *)
Theorem register_without_role_at_sample :
  RegisterUserInput.role sample_input = None
  /\ exists r,
       registerUserService (hasher := toy_hasher) sample_env sample_input
                           empty_db = (Returned r, one_user_db)
       /\ Jwt.role (Jwt.payload (Jwt.claims (accessToken r))) = None
       /\ Jwt.role (Jwt.payload (Jwt.claims (refreshToken r))) = None
       /\ Js.has_property "role" (user r) = false
       /\ Js.get (user r) "role" = Js.Undefined.
Proof.
  split; [reflexivity|]. eexists. split; [reflexivity|]. repeat split.
Qed.

(** ** Tokens *)

Lemma sign_signed_with (p : Jwt.Payload) (secret : option string)
    (expiresIn now : Z) (t : Jwt.Token) :
  Jwt.sign p secret expiresIn now = Returned t ->
  Jwt.signed_with t secret expiresIn
  /\ Jwt.payload (Jwt.claims t) = p
  /\ Jwt.iat (Jwt.claims t) = now.
Proof.
  unfold Jwt.sign, Jwt.signed_with.
  destruct (Jwt.falsy secret); [discriminate|].
  intro Ht. injection Ht as <-. repeat split.
Qed.

Lemma verify_threw_not_AppError (token : Jwt.Compact) (secret : option string)
    (now : Z) (e : Js.value) :
  Jwt.verify token secret now = Threw e ->
  Js.instanceof e AppError_prototype = false.
Proof.
  unfold Jwt.verify. destruct token as [s|t].
  - intro He. injection He as <-. reflexivity.
  - destruct (Jwt.falsy secret); [intro He; injection He as <-; reflexivity|].
    destruct (negb _); [intro He; injection He as <-; reflexivity|].
    destruct (Jwt.expired t now); [|discriminate].
    intro He. injection He as <-. reflexivity.
Qed.

Lemma verify_rejects (t : Jwt.Token) (secret : option string) (now : Z) :
  Jwt.signature_valid t secret = false \/ Jwt.expired t now = true ->
  exists e, Jwt.verify (Jwt.Wellformed t) secret now = Threw e.
Proof.
  unfold Jwt.verify. intros [Hsig | Hexp].
  - rewrite Hsig. cbn [negb]. destruct (Jwt.falsy secret); eexists; reflexivity.
  - rewrite Hexp. destruct (Jwt.falsy secret); [eexists; reflexivity|].
    destruct (negb _); eexists; reflexivity.
Qed.

(** What a login that returns has built. *)
Lemma login_returned `{PasswordHasher} (env : Env) (email password : string)
    (db db' : Db) (r : AuthResult) :
  loginUserService env email password db = (Returned r, db') ->
  exists m,
    first_with_email email db = Some m
    /\ bcrypt_compare password (User.password m) = true
    /\ db' = touch (User.id m) (now env) db
    /\ (let payload :=
          {| Jwt.userId := User.id m; Jwt.email := User.email m;
             Jwt.role := Some (role_or_user (User.role m)) |} in
        Jwt.sign payload (JWT_SECRET_ACCESS (config env))
                 (JWT_EXPIRES_IN_SHORT (config env)) (now env)
        = Returned (accessToken r)
        /\ Jwt.sign payload (JWT_SECRET_REFRESH (config env))
                    (JWT_EXPIRES_IN_LONG (config env)) (now env)
           = Returned (refreshToken r))
    /\ user r =
       Js.literal
         [("id", Js.Num (User.id m));
          ("email", Js.Str (User.email m));
          ("first_name", Js.Str (User.first_name m));
          ("last_name", Js.Str (User.last_name m));
          ("date_of_birth", of_column (User.date_of_birth m));
          ("photo_url", of_column (User.photo_url m));
          ("role", of_role (role_or_user (User.role m)))].
Proof.
  intro Hr. apply try_catch_returned in Hr. revert Hr.
  unfold login_try, first_with_email. unfold_monad. cbv zeta.
  destruct (query_error env 0); [discriminate|].
  unfold select_users_by_email. rewrite hd_error_filter.
  destruct (find _ (users db)) as [m|]; [|discriminate].
  destruct (bcrypt_compare password (User.password m)) eqn:Hcmp;
    [|discriminate].
  cbn [negb]. destruct (query_error env 1); [discriminate|].
  cbn [update_last_login].
  destruct (Jwt.falsy (JWT_SECRET_ACCESS _)); [discriminate|].
  destruct (Jwt.sign _ (JWT_SECRET_ACCESS _) _ _) as [a|] eqn:Ha;
    [|discriminate].
  destruct (Jwt.sign _ (JWT_SECRET_REFRESH _) _ _) as [b|] eqn:Hb;
    [|discriminate].
  intro Hr. injection Hr as <- <-. exists m.
  split; [reflexivity|]. split; [exact Hcmp|]. split; [reflexivity|].
  split; [|reflexivity]. split; [exact Ha | exact Hb].
Qed.

(** What a refresh that returns has built. *)
Lemma refresh_returned (env : Env) (refreshToken' : Jwt.Compact)
    (db db' : Db) (r : AuthResult) :
  refreshTokenService env refreshToken' db = (Returned r, db') ->
  exists claims m,
    Jwt.verify refreshToken' (JWT_SECRET_REFRESH (config env)) (now env)
    = Returned claims
    /\ first_with_id (Jwt.userId (Jwt.payload claims)) db = Some m
    /\ db' = db
    /\ (let newPayload :=
          {| Jwt.userId := User.id m; Jwt.email := User.email m;
             Jwt.role := Some (role_or_user (User.role m)) |} in
        Jwt.sign newPayload (JWT_SECRET_ACCESS (config env))
                 (JWT_EXPIRES_IN_LONG (config env)) (now env)
        = Returned (accessToken r)
        /\ Jwt.sign newPayload (JWT_SECRET_REFRESH (config env))
                    (JWT_EXPIRES_IN_SHORT (config env)) (now env)
           = Returned (refreshToken r))
    /\ user r =
       Js.literal
         [("id", Js.Num (User.id m));
          ("email", Js.Str (User.email m));
          ("first_name", Js.Str (User.first_name m));
          ("last_name", Js.Str (User.last_name m));
          ("date_of_birth", of_column (User.date_of_birth m));
          ("photo_url", of_column (User.photo_url m));
          ("role", of_role (role_or_user (User.role m)))].
Proof.
  intro Hr. apply try_catch_returned in Hr. revert Hr.
  unfold refresh_try, first_with_id. unfold_monad. cbv zeta.
  destruct (Jwt.verify _ _ _) as [claims|] eqn:Hv; [|discriminate].
  destruct (query_error env 0); [discriminate|].
  unfold select_users_by_id. rewrite hd_error_filter.
  destruct (find _ (users db)) as [m|] eqn:Hm; [|discriminate].
  destruct (Jwt.sign _ (JWT_SECRET_ACCESS _) _ _) as [a|] eqn:Ha;
    [|discriminate].
  destruct (Jwt.sign _ (JWT_SECRET_REFRESH _) _ _) as [b|] eqn:Hb;
    [|discriminate].
  intro Hr. injection Hr as <- <-. exists claims, m.
  split; [reflexivity|]. split; [exact Hm|]. split; [reflexivity|].
  split; [|reflexivity]. split; [exact Ha | exact Hb].
Qed.

(** Login signs the access token with the access secret and the short
    expiry, and the refresh token with the refresh secret and the long one. *)
Lemma login_token_pair `{PasswordHasher} (env : Env) (email password : string)
    (db db' : Db) (r : AuthResult) :
  loginUserService env email password db = (Returned r, db') ->
  Jwt.signed_with (accessToken r) (JWT_SECRET_ACCESS (config env))
                  (JWT_EXPIRES_IN_SHORT (config env))
  /\ Jwt.signed_with (refreshToken r) (JWT_SECRET_REFRESH (config env))
                     (JWT_EXPIRES_IN_LONG (config env)).
Proof.
  intro Hr. apply login_returned in Hr.
  destruct Hr as (m & _ & _ & _ & [Ha Hb] & _).
  split; [now apply sign_signed_with in Ha | now apply sign_signed_with in Hb].
Qed.

(** So does register. *)
Lemma register_token_pair `{PasswordHasher} (env : Env)
    (input : RegisterUserInput.t) (db db' : Db) (r : AuthResult) :
  registerUserService env input db = (Returned r, db') ->
  Jwt.signed_with (accessToken r) (JWT_SECRET_ACCESS (config env))
                  (JWT_EXPIRES_IN_SHORT (config env))
  /\ Jwt.signed_with (refreshToken r) (JWT_SECRET_REFRESH (config env))
                     (JWT_EXPIRES_IN_LONG (config env)).
Proof.
  intro Hr. apply register_returned in Hr. cbv zeta in Hr.
  destruct Hr as (_ & _ & Ha & Hb & _).
  split; [now apply sign_signed_with in Ha | now apply sign_signed_with in Hb].
Qed.

(** Refresh gives the long expiry to the access token and the short one to
    the refresh token. *)
Lemma refresh_token_pair (env : Env) (refreshToken' : Jwt.Compact)
    (db db' : Db) (r : AuthResult) :
  refreshTokenService env refreshToken' db = (Returned r, db') ->
  Jwt.signed_with (accessToken r) (JWT_SECRET_ACCESS (config env))
                  (JWT_EXPIRES_IN_LONG (config env))
  /\ Jwt.signed_with (refreshToken r) (JWT_SECRET_REFRESH (config env))
                     (JWT_EXPIRES_IN_SHORT (config env)).
Proof.
  intro Hr. apply refresh_returned in Hr.
  destruct Hr as (claims & m & _ & _ & _ & [Ha Hb] & _).
  split; [now apply sign_signed_with in Ha | now apply sign_signed_with in Hb].
Qed.

(** C1 fails on the code at refresh: with a short expiry of 900 s and a long
    one of 604800 s, refreshing the valid [sample_refresh_token] returns an
    access token that lives 604800 s and a refresh token that lives 900 s. *)
Theorem refresh_swaps_expiries_at_sample :
  exists r,
    refreshTokenService later_env (Jwt.Wellformed sample_refresh_token)
                        one_user_db = (Returned r, one_user_db)
    /\ Jwt.exp (Jwt.claims (accessToken r)) - Jwt.iat (Jwt.claims (accessToken r))
       = JWT_EXPIRES_IN_LONG sample_config
    /\ Jwt.exp (Jwt.claims (refreshToken r)) - Jwt.iat (Jwt.claims (refreshToken r))
       = JWT_EXPIRES_IN_SHORT sample_config
    /\ ~ Jwt.signed_with (accessToken r) (JWT_SECRET_ACCESS sample_config)
                         (JWT_EXPIRES_IN_SHORT sample_config)
    /\ ~ Jwt.signed_with (refreshToken r) (JWT_SECRET_REFRESH sample_config)
                         (JWT_EXPIRES_IN_LONG sample_config).
Proof.
  eexists. split; [reflexivity|].
  split; [reflexivity|]. split; [reflexivity|].
  split; intros [_ Hexp]; vm_compute in Hexp; discriminate.
Qed.

(** ** Refresh with a token that does not verify *)

(** C2 (as amended): a refresh token whose signature does not verify or
    which is expired makes refresh throw the generic [AppError] "Failed to
    refresh token" with status 500, and the table is as before. *)
Theorem refresh_rejects_invalid_token (env : Env) (t : Jwt.Token) (db : Db) :
  Jwt.signature_valid t (JWT_SECRET_REFRESH (config env)) = false
  \/ Jwt.expired t (now env) = true ->
  refreshTokenService env (Jwt.Wellformed t) db =
  (Threw (new_AppError "Failed to refresh token" 500), db).
Proof.
  intro Hbad. apply verify_rejects in Hbad. destruct Hbad as [e He].
  unfold refreshTokenService.
  rewrite (try_catch_threw _ _ db db e).
  - now rewrite (verify_threw_not_AppError _ _ _ _ He).
  - unfold refresh_try. unfold_monad. cbv zeta. now rewrite He.
Qed.

Lemma refresh_rejects_invalid_token_witness :
  refreshTokenService later_env (Jwt.Wellformed tampered_refresh_token)
                      one_user_db
  = (Threw (new_AppError "Failed to refresh token" 500), one_user_db)
  /\ refreshTokenService much_later_env (Jwt.Wellformed sample_refresh_token)
                         one_user_db
     = (Threw (new_AppError "Failed to refresh token" 500), one_user_db).
Proof.
  split.
  - apply (refresh_rejects_invalid_token later_env tampered_refresh_token).
    left. reflexivity.
  - apply (refresh_rejects_invalid_token much_later_env sample_refresh_token).
    right. reflexivity.
Defined.

(** C2 as stated fails: refreshing the expired [sample_refresh_token] throws
    an error of status 500, not 401. *)
Lemma refresh_expired_is_not_401 :
  Jwt.expired sample_refresh_token (now much_later_env) = true
  /\ exists e,
       refreshTokenService much_later_env
         (Jwt.Wellformed sample_refresh_token) one_user_db
       = (Threw e, one_user_db)
       /\ Js.get e "statusCode" = Js.Num 500
       /\ Js.get e "statusCode" <> Js.Num 401.
Proof.
  split; [reflexivity|]. eexists. split; [reflexivity|].
  split; [reflexivity | discriminate].
Qed.

(** ** The user projection *)

(** C8: whenever login, register or refresh returns, the [user] object of
    the returned value has no "password" property. *)
Theorem returned_user_has_no_password `{PasswordHasher} (env : Env)
    (db db' : Db) (r : AuthResult) :
  (forall email password,
      loginUserService env email password db = (Returned r, db') ->
      Js.has_property "password" (user r) = false)
  /\ (forall input,
      registerUserService env input db = (Returned r, db') ->
      Js.has_property "password" (user r) = false)
  /\ (forall refreshToken',
      refreshTokenService env refreshToken' db = (Returned r, db') ->
      Js.has_property "password" (user r) = false).
Proof.
  split; [|split].
  - intros email password Hr. apply login_returned in Hr.
    destruct Hr as (m & _ & _ & _ & _ & ->). reflexivity.
  - intros input Hr. apply register_returned in Hr. cbv zeta in Hr.
    destruct Hr as (_ & _ & _ & _ & ->). reflexivity.
  - intros refreshToken' Hr. apply refresh_returned in Hr.
    destruct Hr as (claims & m & _ & _ & _ & _ & ->). reflexivity.
Qed.

Lemma returned_user_has_no_password_witness :
  (exists r db',
      loginUserService (hasher := toy_hasher) sample_env "a@x.com" "pw123456"
                       one_user_db = (Returned r, db')
      /\ Js.has_property "password" (user r) = false)
  /\ (exists r db',
      registerUserService (hasher := toy_hasher) sample_env sample_input
                          empty_db = (Returned r, db')
      /\ Js.has_property "password" (user r) = false)
  /\ (exists r db',
      refreshTokenService later_env (Jwt.Wellformed sample_refresh_token)
                          one_user_db = (Returned r, db')
      /\ Js.has_property "password" (user r) = false).
Proof.
  split; [|split]; do 2 eexists; (split; [reflexivity|]).
  - eapply (proj1 (returned_user_has_no_password (H := toy_hasher)
                     sample_env one_user_db _ _) "a@x.com" "pw123456").
    reflexivity.
  - eapply (proj1 (proj2 (returned_user_has_no_password (H := toy_hasher)
                            sample_env empty_db _ _)) sample_input).
    reflexivity.
  - eapply (proj2 (proj2 (returned_user_has_no_password (H := toy_hasher)
                            later_env one_user_db _ _))
                  (Jwt.Wellformed sample_refresh_token)).
    reflexivity.
Defined.

Lemma login_frame_witness :
  first_with_email "a@x.com"
    (snd (loginUserService (hasher := toy_hasher) later_env
                           "a@x.com" "pw123456" one_user_db))
  = option_map (User.set_last_login 2000)
               (first_with_email "a@x.com" one_user_db)
  /\ snd (loginUserService (hasher := toy_hasher) later_env
                           "a@x.com" "wrong" one_user_db) = one_user_db.
Proof.
  split.
  - destruct (login_frame (H := toy_hasher) later_env "a@x.com" "pw123456"
                one_user_db) as (_ & _ & _ & Hok).
    destruct (Hok _ eq_refl) as (m & Hm & _ & Hset).
    rewrite Hset, Hm. reflexivity.
  - destruct (login_frame (H := toy_hasher) later_env "a@x.com" "wrong"
                one_user_db) as (_ & _ & Hfail & _).
    apply Hfail. reflexivity.
Defined.

(** * Further properties of the services *)

(** ** Login *)

Lemma sign_returned_secret (p : Jwt.Payload) (secret : option string)
    (expiresIn now : Z) (t : Jwt.Token) :
  Jwt.sign p secret expiresIn now = Returned t ->
  Jwt.falsy secret = false
  /\ Jwt.claims t = {| Jwt.payload := p; Jwt.iat := now;
                       Jwt.exp := now + expiresIn |}
  /\ Jwt.signature t = Jwt.HS256 (Jwt.key_of secret) (Jwt.claims t).
Proof.
  unfold Jwt.sign. destruct (Jwt.falsy secret); [discriminate|].
  intro Ht. injection Ht as <-. repeat split.
Qed.

(** A login returns only if both queries were answered. *)
Lemma login_returned_queries `{PasswordHasher} (env : Env)
    (email password : string) (db db' : Db) (r : AuthResult) :
  loginUserService env email password db = (Returned r, db') ->
  query_error env 0 = None /\ query_error env 1 = None.
Proof.
  intro Hr. apply try_catch_returned in Hr. revert Hr.
  unfold login_try. unfold_monad. cbv zeta.
  destruct (query_error env 0); [discriminate|].
  unfold select_users_by_email.
  destruct (hd_error _) as [m|]; [|discriminate].
  destruct (negb _); [discriminate|].
  destruct (query_error env 1); [discriminate|]. now split.
Qed.

(** A login goes through when the store answers, the credentials match and
    the secrets are set. *)
Lemma login_accepted `{PasswordHasher} (env : Env) (email password : string)
    (db : Db) (m : User.t) :
  query_error env 0 = None ->
  query_error env 1 = None ->
  first_with_email email db = Some m ->
  bcrypt_compare password (User.password m) = true ->
  secrets_set (config env) ->
  exists r,
    loginUserService env email password db =
    (Returned r, touch (User.id m) (now env) db).
Proof.
  unfold first_with_email. intros Hq0 Hq1 Hm Hcmp [Hacc Href].
  unfold loginUserService, login_try. unfold_monad. cbv zeta.
  rewrite Hq0. unfold select_users_by_email.
  rewrite hd_error_filter, Hm, Hcmp. cbn [negb]. rewrite Hq1.
  cbn [update_last_login]. rewrite Hacc.
  rewrite (sign_access_returns _ _ _ _ Hacc), (sign_access_returns _ _ _ _ Href).
  eexists. reflexivity.
Qed.

Lemma first_with_email_found (email : string) (db : Db) (m : User.t) :
  first_with_email email db = Some m ->
  In m (users db) /\ User.email m = email.
Proof.
  unfold first_with_email. intro Hm. apply find_some in Hm.
  destruct Hm as [Hin Heq]. split; [exact Hin | now apply String.eqb_eq].
Qed.

(** X1: a login that returns has matched a row of the table that holds the
    email and whose stored hash accepts the password; both tokens carry that
    row's id, email and role (or "user" when the role is null), are issued
    now, and the returned user shows the same id, email and role. *)
Theorem login_returns_matched_user `{PasswordHasher} (env : Env)
    (email password : string) (db db' : Db) (r : AuthResult) :
  loginUserService env email password db = (Returned r, db') ->
  exists m,
    In m (users db)
    /\ User.email m = email
    /\ bcrypt_compare password (User.password m) = true
    /\ Jwt.claims (accessToken r) =
       {| Jwt.payload := payload_of m; Jwt.iat := now env;
          Jwt.exp := now env + JWT_EXPIRES_IN_SHORT (config env) |}
    /\ Jwt.claims (refreshToken r) =
       {| Jwt.payload := payload_of m; Jwt.iat := now env;
          Jwt.exp := now env + JWT_EXPIRES_IN_LONG (config env) |}
    /\ Js.get (user r) "id" = Js.Num (User.id m)
    /\ Js.get (user r) "email" = Js.Str email
    /\ Js.get (user r) "role" = of_role (role_or_user (User.role m)).
Proof.
  intro Hr. apply login_returned in Hr.
  destruct Hr as (m & Hm & Hcmp & _ & [Ha Hb] & ->).
  apply first_with_email_found in Hm. destruct Hm as [Hin Hemail].
  apply sign_returned_secret in Ha. apply sign_returned_secret in Hb.
  exists m. split; [exact Hin|]. split; [exact Hemail|].
  split; [exact Hcmp|]. split; [apply Ha|]. split; [apply Hb|].
  rewrite <- Hemail. repeat split.
Qed.

Lemma login_returns_matched_user_witness :
  exists m,
    In m (users one_user_db)
    /\ User.email m = "a@x.com"%string
    /\ bcrypt_compare (PasswordHasher := toy_hasher) "pw123456"
                      (User.password m) = true
    /\ payload_of m = {| Jwt.userId := 1; Jwt.email := "a@x.com";
                         Jwt.role := Some RoleUser |}.
Proof.
  destruct (login_returns_matched_user (H := toy_hasher) sample_env
              "a@x.com" "pw123456" one_user_db _ _ eq_refl)
    as (m & Hin & Hemail & Hcmp & Ha & _).
  exists m. split; [exact Hin|]. split; [exact Hemail|]. split; [exact Hcmp|].
  apply (f_equal Jwt.payload) in Ha. symmetry. exact Ha.
Defined.

(** X2: login returns exactly when the store answers both of its queries,
    the first row with the email has a hash that accepts the password, and
    both signing secrets are set. *)
Theorem login_returns_iff `{PasswordHasher} (env : Env)
    (email password : string) (db : Db) :
  (exists r db', loginUserService env email password db = (Returned r, db'))
  <->
  (query_error env 0 = None
   /\ query_error env 1 = None
   /\ (exists m, first_with_email email db = Some m
                 /\ bcrypt_compare password (User.password m) = true)
   /\ secrets_set (config env)).
Proof.
  split.
  - intros (r & db' & Hr).
    destruct (login_returned_queries _ _ _ _ _ _ Hr) as [Hq0 Hq1].
    apply login_returned in Hr.
    destruct Hr as (m & Hm & Hcmp & _ & [Ha Hb] & _).
    apply sign_returned_secret in Ha. apply sign_returned_secret in Hb.
    split; [exact Hq0|]. split; [exact Hq1|].
    split; [exists m; now split|]. split; [apply Ha | apply Hb].
  - intros (Hq0 & Hq1 & (m & Hm & Hcmp) & Hsecrets).
    destruct (login_accepted env email password db m Hq0 Hq1 Hm Hcmp Hsecrets)
      as [r Hr].
    eauto.
Qed.

(** ** Register *)

Lemma filter_length_existsb {A} (f : A -> bool) (l : list A) :
  (0 <? length (filter f l))%nat = existsb f l.
Proof.
  induction l as [|a l IH]; simpl; [reflexivity|].
  destruct (f a); [reflexivity | exact IH].
Qed.

Lemma existsb_email_In (email : string) (l : list User.t) :
  existsb (fun u => String.eqb (User.email u) email) l = true <->
  In email (map User.email l).
Proof.
  rewrite existsb_exists, in_map_iff.
  split; intros (u & H1 & H2); exists u.
  - split; [now apply String.eqb_eq | exact H1].
  - split; [exact H2 | now apply String.eqb_eq].
Qed.

(** Every way a register call can end, by what it finds. *)
Lemma register_cases `{PasswordHasher} (env : Env)
    (input : RegisterUserInput.t) (db : Db) :
  let email := RegisterUserInput.email input in
  let taken := existsb (fun u => String.eqb (User.email u) email) (users db) in
  match query_error env 0 with
  | Some _ => registerUserService env input db = (Threw register_failed, db)
  | None =>
    if taken then
      registerUserService env input db =
      (Threw (new_AppError "Email already registered" 409), db)
    else
      match query_error env 1 with
      | Some _ => registerUserService env input db = (Threw register_failed, db)
      | None =>
        if Jwt.falsy (JWT_SECRET_ACCESS (config env))
           || Jwt.falsy (JWT_SECRET_REFRESH (config env))
        then registerUserService env input db =
             (Threw register_failed, with_registered env input db)
        else exists r, registerUserService env input db =
                       (Returned r, with_registered env input db)
      end
  end.
Proof.
  cbv zeta. unfold registerUserService, register_try. unfold_monad. cbv zeta.
  destruct (query_error env 0); [now rewrite rethrow_eq|].
  unfold select_id_by_email. rewrite length_map, filter_length_existsb.
  destruct (existsb _ (users db)) eqn:Htaken; [now rewrite rethrow_eq|].
  destruct (query_error env 1); [now rewrite rethrow_eq|].
  unfold insert_user. rewrite Htaken. cbn [hd_error].
  unfold Jwt.sign.
  destruct (Jwt.falsy (JWT_SECRET_ACCESS _)); cbn [orb];
    [now rewrite rethrow_eq|].
  destruct (Jwt.falsy (JWT_SECRET_REFRESH _)); [now rewrite rethrow_eq|].
  eexists. reflexivity.
Qed.

(** X3: register never changes or removes a row that was there: the rows
    after the call are the rows before it followed by at most one new row,
    which holds the input's email, the hash of its password and no login
    time; a call that throws the 409 conflict adds nothing, a call that
    returns adds exactly one row. *)
Theorem register_frame `{PasswordHasher} (env : Env)
    (input : RegisterUserInput.t) (db : Db) :
  let out := fst (registerUserService env input db) in
  let db' := snd (registerUserService env input db) in
  exists added,
    users db' = (users db ++ added)%list
    /\ (length added <= 1)%nat
    /\ Forall (fun row =>
                 User.email row = RegisterUserInput.email input
                 /\ User.password row =
                    bcrypt_hash (RegisterUserInput.password input) 10 (salt env)
                 /\ User.last_login row = None) added
    /\ (out = Threw (new_AppError "Email already registered" 409) ->
        added = [])
    /\ (forall r, out = Returned r -> length added = 1%nat).
Proof.
  cbv zeta. pose proof (register_cases env input db) as Hc. cbv zeta in Hc.
  assert (Hsame : forall e,
             registerUserService env input db = (Threw e, db) ->
             exists added,
               users (snd (registerUserService env input db))
               = (users db ++ added)%list
               /\ (length added <= 1)%nat
               /\ Forall (fun row =>
                     User.email row = RegisterUserInput.email input
                     /\ User.password row =
                        bcrypt_hash (RegisterUserInput.password input) 10
                                    (salt env)
                     /\ User.last_login row = None) added
               /\ (fst (registerUserService env input db)
                   = Threw (new_AppError "Email already registered" 409) ->
                   added = [])
               /\ (forall r, fst (registerUserService env input db)
                             = Returned r -> length added = 1%nat)).
  { intros e ->. exists []. cbn [fst snd]. rewrite app_nil_r.
    split; [reflexivity|]. split; [simpl; lia|]. split; [constructor|].
    split; [reflexivity | discriminate]. }
  destruct (query_error env 0); [now apply (Hsame _ Hc)|].
  destruct (existsb _ (users db)); [now apply (Hsame _ Hc)|].
  destruct (query_error env 1); [now apply (Hsame _ Hc)|].
  clear Hsame.
  assert (Hrow : Forall (fun row =>
                   User.email row = RegisterUserInput.email input
                   /\ User.password row =
                      bcrypt_hash (RegisterUserInput.password input) 10
                                  (salt env)
                   /\ User.last_login row = None)
                 [inserted_row (users_id_seq db) (RegisterUserInput.email input)
                    (bcrypt_hash (RegisterUserInput.password input) 10 (salt env))
                    (RegisterUserInput.first_name input)
                    (RegisterUserInput.last_name input)
                    (or_null (RegisterUserInput.date_of_birth input))
                    (or_null (RegisterUserInput.photo_url input))]).
  { repeat constructor. }
  destruct (_ || _).
  - rewrite Hc. cbn [fst snd with_registered users]. eexists.
    split; [reflexivity|]. split; [simpl; lia|]. split; [exact Hrow|].
    split; [discriminate | discriminate].
  - destruct Hc as [r ->]. cbn [fst snd with_registered users]. eexists.
    split; [reflexivity|]. split; [simpl; lia|]. split; [exact Hrow|].
    split; [discriminate | reflexivity].
Qed.

(** X4: the role of the request body never reaches the table: the rows
    register leaves behind are the same whatever role was asked for. *)
Theorem register_role_not_stored `{PasswordHasher} (env : Env)
    (input : RegisterUserInput.t) (role : option Role) (db : Db) :
  snd (registerUserService env (with_role role input) db)
  = snd (registerUserService env input db).
Proof.
  pose proof (register_cases env input db) as Hc.
  pose proof (register_cases env (with_role role input) db) as Hr.
  cbv zeta in Hc, Hr. cbn [with_role RegisterUserInput.email] in Hr.
  destruct (query_error env 0); [now rewrite Hc, Hr|].
  destruct (existsb _ (users db)); [now rewrite Hc, Hr|].
  destruct (query_error env 1); [now rewrite Hc, Hr|].
  destruct (_ || _).
  - now rewrite Hc, Hr.
  - destruct Hc as [r1 ->]. destruct Hr as [r2 ->]. reflexivity.
Qed.

(** X5: register returns exactly when the store answers both of its
    queries, no row holds the email, and both signing secrets are set. *)
Theorem register_returns_iff `{PasswordHasher} (env : Env)
    (input : RegisterUserInput.t) (db : Db) :
  (exists r db', registerUserService env input db = (Returned r, db'))
  <->
  (query_error env 0 = None
   /\ query_error env 1 = None
   /\ ~ In (RegisterUserInput.email input) (map User.email (users db))
   /\ secrets_set (config env)).
Proof.
  unfold secrets_set. rewrite <- existsb_email_In.
  pose proof (register_cases env input db) as Hc. cbv zeta in Hc.
  destruct (query_error env 0).
  { rewrite Hc. split; [intros (r & db' & Hr) | intros (Hq & _)]; discriminate. }
  destruct (existsb _ (users db)).
  { rewrite Hc. split; [intros (r & db' & Hr); discriminate|].
    intros (_ & _ & Hfresh & _). now contradiction Hfresh. }
  destruct (query_error env 1).
  { rewrite Hc. split; [intros (r & db' & Hr) | intros (_ & Hq & _)];
      discriminate. }
  destruct (Jwt.falsy (JWT_SECRET_ACCESS _)), (Jwt.falsy (JWT_SECRET_REFRESH _));
    cbn [orb] in Hc;
    try (rewrite Hc; split;
         [intros (r & db' & Hr); discriminate
         | intros (_ & _ & _ & [Ha Hb]); discriminate]).
  destruct Hc as [r Hr]. split; [|eauto].
  intros _. repeat split. discriminate.
Qed.

(** X6: when a signing secret is missing, register throws its generic 500
    error after the row was inserted: the email is taken, and registering it
    again is a conflict. *)
Theorem register_inserts_before_signing `{PasswordHasher} (env : Env)
    (input : RegisterUserInput.t) (db : Db) :
  query_error env 0 = None ->
  query_error env 1 = None ->
  ~ In (RegisterUserInput.email input) (map User.email (users db)) ->
  ~ secrets_set (config env) ->
  registerUserService env input db =
  (Threw (new_AppError "Failed to register user" 500),
   with_registered env input db)
  /\ (forall env2 input2,
        query_error env2 0 = None ->
        RegisterUserInput.email input2 = RegisterUserInput.email input ->
        registerUserService env2 input2 (with_registered env input db) =
        (Threw (new_AppError "Email already registered" 409),
         with_registered env input db)).
Proof.
  intros Hq0 Hq1 Hfresh Hsecrets. split.
  - pose proof (register_cases env input db) as Hc. cbv zeta in Hc.
    rewrite Hq0, Hq1 in Hc. rewrite <- existsb_email_In in Hfresh.
    destruct (existsb _ (users db)); [now contradiction Hfresh|].
    unfold secrets_set in Hsecrets.
    destruct (Jwt.falsy (JWT_SECRET_ACCESS _)),
             (Jwt.falsy (JWT_SECRET_REFRESH _)); cbn [orb] in Hc;
      try exact Hc.
    contradiction Hsecrets. now split.
  - intros env2 input2 Hq Hsame.
    apply register_existing_email; [exact Hq|].
    rewrite Hsame. cbn [with_registered users]. rewrite map_app.
    apply in_or_app. right. now left.
Qed.

Lemma register_inserts_before_signing_witness :
  registerUserService (hasher := toy_hasher) no_refresh_secret_env
                      sample_input empty_db
  = (Threw (new_AppError "Failed to register user" 500), one_user_db)
  /\ registerUserService (hasher := toy_hasher) sample_env sample_input
                         one_user_db
     = (Threw (new_AppError "Email already registered" 409), one_user_db).
Proof.
  assert (Hfresh : ~ In (RegisterUserInput.email sample_input)
                        (map User.email (users empty_db))).
  { simpl. tauto. }
  assert (Hsecrets : ~ secrets_set (config no_refresh_secret_env)).
  { intros [_ Hrefresh]. discriminate Hrefresh. }
  destruct (register_inserts_before_signing (H := toy_hasher)
              no_refresh_secret_env sample_input empty_db eq_refl eq_refl
              Hfresh Hsecrets) as [Hfirst Hagain].
  split; [exact Hfirst|].
  exact (Hagain sample_env sample_input eq_refl eq_refl).
Defined.

(** ** Refresh *)

Lemma signature_valid_iff (t : Jwt.Token) (secret : option string) :
  Jwt.signature_valid t secret = true <->
  Jwt.signature t = Jwt.HS256 (Jwt.key_of secret) (Jwt.claims t).
Proof.
  unfold Jwt.signature_valid.
  destruct (Jwt.Signature_eq_dec _ _); split; congruence.
Qed.

Lemma verify_returned (token : Jwt.Compact) (secret : option string)
    (now : Z) (c : Jwt.Claims) :
  Jwt.verify token secret now = Returned c <->
  exists t, token = Jwt.Wellformed t
            /\ c = Jwt.claims t
            /\ Jwt.falsy secret = false
            /\ Jwt.signature t = Jwt.HS256 (Jwt.key_of secret) (Jwt.claims t)
            /\ now < Jwt.exp (Jwt.claims t).
Proof.
  unfold Jwt.verify, Jwt.expired. split.
  - destruct token as [s|t]; [discriminate|].
    destruct (Jwt.falsy secret); [discriminate|].
    destruct (Jwt.signature_valid t secret) eqn:Hsig; [|discriminate].
    cbn [negb]. destruct (Z.leb_spec (Jwt.exp (Jwt.claims t)) now);
      [discriminate|].
    intro Hc. injection Hc as <-. exists t.
    repeat split; [now apply signature_valid_iff | assumption].
  - intros (t & -> & -> & Hsecret & Hsig & Hnow).
    apply signature_valid_iff in Hsig. rewrite Hsecret, Hsig. cbn [negb].
    destruct (Z.leb_spec (Jwt.exp (Jwt.claims t)) now); [lia | reflexivity].
Qed.

(** Every way a refresh call can end, by what it finds; the table is never
    touched. *)
Lemma refresh_cases (env : Env) (token : Jwt.Compact) (db : Db) :
  match Jwt.verify token (JWT_SECRET_REFRESH (config env)) (now env) with
  | Threw _ => refreshTokenService env token db = (Threw refresh_failed, db)
  | Returned c =>
    match query_error env 0 with
    | Some _ => refreshTokenService env token db = (Threw refresh_failed, db)
    | None =>
      match first_with_id (Jwt.userId (Jwt.payload c)) db with
      | None => refreshTokenService env token db =
                (Threw (new_AppError "Login Failed" 404), db)
      | Some m =>
        if Jwt.falsy (JWT_SECRET_ACCESS (config env)) then
          refreshTokenService env token db = (Threw refresh_failed, db)
        else exists r, refreshTokenService env token db = (Returned r, db)
      end
    end
  end.
Proof.
  unfold refreshTokenService, refresh_try, first_with_id.
  unfold_monad. cbv zeta.
  destruct (Jwt.verify _ _ _) as [c|e] eqn:Hv.
  2:{ now rewrite rethrow_eq, (verify_threw_not_AppError _ _ _ _ Hv). }
  apply verify_returned in Hv. destruct Hv as (t & _ & _ & Hsecret & _).
  destruct (query_error env 0); [now rewrite rethrow_eq|].
  unfold select_users_by_id. rewrite hd_error_filter.
  destruct (find _ (users db)) as [m|]; [|now rewrite rethrow_eq].
  unfold Jwt.sign. rewrite Hsecret.
  destruct (Jwt.falsy (JWT_SECRET_ACCESS _)); [now rewrite rethrow_eq|].
  eexists. reflexivity.
Qed.

(** X7: refresh never writes to the table, however the call ends. *)
Theorem refresh_leaves_store (env : Env) (token : Jwt.Compact) (db : Db) :
  snd (refreshTokenService env token db) = db.
Proof.
  pose proof (refresh_cases env token db) as Hc.
  destruct (Jwt.verify _ _ _); [|now rewrite Hc].
  destruct (query_error env 0); [now rewrite Hc|].
  destruct (first_with_id _ db); [|now rewrite Hc].
  destruct (Jwt.falsy _); [now rewrite Hc|].
  destruct Hc as [r ->]. reflexivity.
Qed.

(** X8: refresh returns exactly when the token is well formed, carries the
    signature of the refresh secret over its claims and has not expired, the
    store answers, a row has the id of the token's payload, and the access
    secret is set. *)
Theorem refresh_returns_iff (env : Env) (token : Jwt.Compact) (db : Db) :
  (exists r db', refreshTokenService env token db = (Returned r, db'))
  <->
  (exists t m,
      token = Jwt.Wellformed t
      /\ Jwt.signature t =
         Jwt.HS256 (Jwt.key_of (JWT_SECRET_REFRESH (config env))) (Jwt.claims t)
      /\ now env < Jwt.exp (Jwt.claims t)
      /\ query_error env 0 = None
      /\ first_with_id (Jwt.userId (Jwt.payload (Jwt.claims t))) db = Some m
      /\ secrets_set (config env)).
Proof.
  unfold secrets_set. pose proof (refresh_cases env token db) as Hc. split.
  - intros (r & db' & Hr). rewrite Hr in Hc.
    destruct (Jwt.verify _ _ _) as [c|] eqn:Hv; [|discriminate].
    apply verify_returned in Hv.
    destruct Hv as (t & -> & -> & Hsecret & Hsig & Hnow).
    destruct (query_error env 0); [discriminate|].
    destruct (first_with_id _ db) as [m|] eqn:Hm; [|discriminate].
    destruct (Jwt.falsy (JWT_SECRET_ACCESS _)); [discriminate|].
    exists t, m. repeat split; first [assumption | reflexivity].
  - intros (t & m & -> & Hsig & Hnow & Hq & Hm & Hacc & Href).
    assert (Hv : Jwt.verify (Jwt.Wellformed t) (JWT_SECRET_REFRESH (config env))
                            (now env) = Returned (Jwt.claims t)).
    { apply verify_returned. exists t. repeat split; assumption. }
    rewrite Hv, Hq, Hm, Hacc in Hc. destruct Hc as [r Hr]. eauto.
Qed.

(** X9: a refresh token that verifies but names a user id no row has makes
    refresh throw the [AppError] "Login Failed" with status 404, the error of
    a failed login. *)
Theorem refresh_unknown_user (env : Env) (t : Jwt.Token) (db : Db) :
  Jwt.falsy (JWT_SECRET_REFRESH (config env)) = false ->
  Jwt.signature t =
  Jwt.HS256 (Jwt.key_of (JWT_SECRET_REFRESH (config env))) (Jwt.claims t) ->
  now env < Jwt.exp (Jwt.claims t) ->
  query_error env 0 = None ->
  ~ In (Jwt.userId (Jwt.payload (Jwt.claims t))) (map User.id (users db)) ->
  refreshTokenService env (Jwt.Wellformed t) db =
  (Threw (new_AppError "Login Failed" 404), db).
Proof.
  intros Hsecret Hsig Hnow Hq Hno.
  pose proof (refresh_cases env (Jwt.Wellformed t) db) as Hc.
  assert (Hv : Jwt.verify (Jwt.Wellformed t) (JWT_SECRET_REFRESH (config env))
                          (now env) = Returned (Jwt.claims t)).
  { apply verify_returned. exists t. repeat split; assumption. }
  rewrite Hv, Hq in Hc.
  destruct (first_with_id _ db) as [m|] eqn:Hm; [|exact Hc].
  exfalso. apply Hno. unfold first_with_id in Hm. apply find_some in Hm.
  destruct Hm as [Hin Hid]. apply Z.eqb_eq in Hid. rewrite <- Hid.
  now apply in_map.
Qed.

Lemma refresh_unknown_user_witness :
  refreshTokenService later_env (Jwt.Wellformed sample_refresh_token) empty_db
  = (Threw (new_AppError "Login Failed" 404), empty_db).
Proof.
  apply (refresh_unknown_user later_env sample_refresh_token empty_db);
    try reflexivity.
  simpl. tauto.
Defined.

(** ** How the services compose *)

Lemma first_with_email_registered `{PasswordHasher} (env : Env)
    (input : RegisterUserInput.t) (db : Db) :
  filter (fun u => String.eqb (User.email u) (RegisterUserInput.email input))
         (users db) = [] ->
  exists row,
    first_with_email (RegisterUserInput.email input)
                     (with_registered env input db) = Some row
    /\ User.id row = users_id_seq db
    /\ User.email row = RegisterUserInput.email input
    /\ User.password row =
       bcrypt_hash (RegisterUserInput.password input) 10 (salt env).
Proof.
  intro Hfresh. unfold first_with_email. rewrite <- hd_error_filter.
  cbn [with_registered users].
  rewrite (filter_app_fresh _ _ _ Hfresh) by apply String.eqb_refl.
  eexists. repeat split.
Qed.

(** X10: after a registration that returned, a login with the same email and
    password returns too, provided the store answers and the secrets are
    set; its tokens and its user carry the id that registration returned. *)
Theorem register_then_login {hasher : PasswordHasher}
    {laws : HasherLaws hasher} (env env2 : Env)
    (input : RegisterUserInput.t) (db db' : Db) (r : AuthResult) :
  registerUserService env input db = (Returned r, db') ->
  query_error env2 0 = None ->
  query_error env2 1 = None ->
  secrets_set (config env2) ->
  exists r2 db2,
    loginUserService env2 (RegisterUserInput.email input)
                     (RegisterUserInput.password input) db' = (Returned r2, db2)
    /\ Jwt.userId (Jwt.payload (Jwt.claims (accessToken r2)))
       = Jwt.userId (Jwt.payload (Jwt.claims (accessToken r)))
    /\ Jwt.userId (Jwt.payload (Jwt.claims (refreshToken r2)))
       = Jwt.userId (Jwt.payload (Jwt.claims (refreshToken r)))
    /\ Js.get (user r2) "id" = Js.get (user r) "id"
    /\ Js.get (user r2) "email" = Js.get (user r) "email".
Proof.
  intros Hr Hq0 Hq1 Hsecrets. apply register_returned in Hr. cbv zeta in Hr.
  destruct Hr as (Hfresh & Hdb & Ha & Hb & Hu).
  fold (with_registered env input db) in Hdb. subst db'.
  destruct (first_with_email_registered env input db Hfresh)
    as (row & Hrow & Hid & Hemail & Hpw).
  assert (Hcmp : bcrypt_compare (RegisterUserInput.password input)
                                (User.password row) = true).
  { rewrite Hpw. apply compare_hash. }
  destruct (login_accepted env2 _ _ _ row Hq0 Hq1 Hrow Hcmp Hsecrets)
    as [r2 Hr2].
  exists r2, (touch (User.id row) (now env2) (with_registered env input db)).
  split; [exact Hr2|].
  apply login_returned in Hr2.
  destruct Hr2 as (m & Hm & _ & _ & [Ha2 Hb2] & Hu2).
  rewrite Hrow in Hm. injection Hm as <-.
  apply sign_returned_secret in Ha, Hb, Ha2, Hb2.
  destruct Ha as (_ & -> & _), Hb as (_ & -> & _).
  destruct Ha2 as (_ & -> & _), Hb2 as (_ & -> & _).
  rewrite Hu, Hu2, Hid, Hemail. repeat split.
Qed.

Lemma register_then_login_witness :
  exists r2 db2,
    loginUserService (hasher := toy_hasher) later_env "a@x.com" "pw123456"
                     one_user_db = (Returned r2, db2)
    /\ Jwt.userId (Jwt.payload (Jwt.claims (accessToken r2))) = 1
    /\ Js.get (user r2) "id" = Js.Num 1.
Proof.
  destruct (register_then_login (laws := toy_hasher_laws) sample_env later_env
              sample_input empty_db one_user_db _ eq_refl eq_refl eq_refl
              (conj eq_refl eq_refl))
    as (r2 & db2 & Hr2 & Hid & _ & Huid & _).
  exists r2, db2. split; [exact Hr2|]. split; [exact Hid | exact Huid].
Defined.

Lemma register_twice_witness :
  registerUserService (hasher := toy_hasher) later_env
                      (with_role (Some RoleAdmin) sample_input) one_user_db
  = (Threw (new_AppError "Email already registered" 409), one_user_db)
  /\ rows_with_email "a@x.com" one_user_db = 1%nat.
Proof.
  assert (Hunique : unique_emails empty_db) by constructor.
  exact (register_twice (H := toy_hasher) sample_env later_env sample_input
           (with_role (Some RoleAdmin) sample_input) empty_db one_user_db _
           Hunique eq_refl eq_refl eq_refl).
Defined.

Lemma find_unique_id (l : list User.t) (m : User.t) :
  NoDup (map User.id l) ->
  In m l ->
  find (fun u => User.id u =? User.id m) l = Some m.
Proof.
  induction l as [|a l IH]; simpl; [contradiction|].
  intros Hnodup Hin. inversion Hnodup as [|x xs Hx Hxs]; subst.
  destruct Hin as [->|Hin]; [now rewrite Z.eqb_refl|].
  destruct (Z.eqb_spec (User.id a) (User.id m)) as [Heq|_]; [|now apply IH].
  exfalso. apply Hx. rewrite Heq. now apply in_map.
Qed.

Lemma first_with_id_touch (m : User.t) (now : Z) (db : Db) :
  NoDup (map User.id (users db)) ->
  In m (users db) ->
  first_with_id (User.id m) (touch (User.id m) now db)
  = Some (User.set_last_login now m).
Proof.
  intros Hnodup Hin. unfold first_with_id, touch.
  cbn [update_last_login snd users]. rewrite find_map_preserved.
  - rewrite (find_unique_id _ _ Hnodup Hin). cbn [option_map].
    now rewrite Z.eqb_refl.
  - intro x. destruct (User.id x =? User.id m) eqn:Hid;
      cbn [User.set_last_login User.id]; exact Hid.
Qed.

(** X11: the refresh token a login returned is accepted by refresh for as
    long as it has not expired (same configuration, the store answering, ids
    unique): refresh returns, leaves the table alone, and its tokens and user
    have the payload and the projection the login gave. *)
Theorem login_then_refresh `{PasswordHasher} (env env2 : Env)
    (email password : string) (db db' : Db) (r : AuthResult) :
  NoDup (map User.id (users db)) ->
  loginUserService env email password db = (Returned r, db') ->
  config env2 = config env ->
  query_error env2 0 = None ->
  now env2 < now env + JWT_EXPIRES_IN_LONG (config env) ->
  exists r2,
    refreshTokenService env2 (Jwt.Wellformed (refreshToken r)) db'
    = (Returned r2, db')
    /\ Jwt.payload (Jwt.claims (accessToken r2))
       = Jwt.payload (Jwt.claims (accessToken r))
    /\ Jwt.payload (Jwt.claims (refreshToken r2))
       = Jwt.payload (Jwt.claims (refreshToken r))
    /\ user r2 = user r.
Proof.
  intros Hnodup Hr Hcfg Hq Hnow. apply login_returned in Hr.
  destruct Hr as (m & Hm & _ & -> & [Ha Hb] & Hu).
  apply first_with_email_found in Hm. destruct Hm as [Hin _].
  apply sign_returned_secret in Ha, Hb.
  destruct Ha as (Hacc & Hca & _), Hb as (Href & Hcb & Hsig).
  pose proof (first_with_id_touch m (now env) db Hnodup Hin) as Hrow.
  assert (Hok : exists r2,
             refreshTokenService env2 (Jwt.Wellformed (refreshToken r))
               (touch (User.id m) (now env) db)
             = (Returned r2, touch (User.id m) (now env) db)).
  { pose proof (refresh_cases env2 (Jwt.Wellformed (refreshToken r))
                  (touch (User.id m) (now env) db)) as Hc.
    rewrite Hcfg in Hc.
    assert (Hv : Jwt.verify (Jwt.Wellformed (refreshToken r))
                   (JWT_SECRET_REFRESH (config env)) (now env2)
                 = Returned (Jwt.claims (refreshToken r))).
    { apply verify_returned. exists (refreshToken r).
      repeat split; [exact Href | exact Hsig |]. rewrite Hcb. exact Hnow. }
    rewrite Hv, Hq, Hcb in Hc. cbn [Jwt.payload payload_of Jwt.userId] in Hc.
    rewrite Hrow, Hacc in Hc. exact Hc. }
  destruct Hok as [r2 Hr2]. exists r2. split; [exact Hr2|].
  apply refresh_returned in Hr2.
  destruct Hr2 as (c & m2 & Hv & Hm2 & _ & [Ha2 Hb2] & Hu2).
  rewrite Hcfg in Hv. apply verify_returned in Hv.
  destruct Hv as (t & Ht & -> & _). injection Ht as <-.
  rewrite Hcb in Hm2. cbn [Jwt.payload Jwt.userId] in Hm2.
  rewrite Hrow in Hm2. injection Hm2 as <-.
  apply sign_returned_secret in Ha2, Hb2.
  destruct Ha2 as (_ & -> & _), Hb2 as (_ & -> & _).
  rewrite Hca, Hcb, Hu, Hu2. repeat split.
Qed.

Lemma login_then_refresh_witness :
  exists r2,
    refreshTokenService later_env (Jwt.Wellformed sample_refresh_token)
                        (touch 1 1000 one_user_db)
    = (Returned r2, touch 1 1000 one_user_db)
    /\ Js.get (user r2) "email" = Js.Str "a@x.com".
Proof.
  assert (Hnodup : NoDup (map User.id (users one_user_db))).
  { repeat constructor. simpl. tauto. }
  destruct (login_then_refresh (H := toy_hasher) sample_env later_env
              "a@x.com" "pw123456" one_user_db _ _ Hnodup eq_refl eq_refl
              eq_refl eq_refl)
    as (r2 & Hr2 & _ & _ & Hu).
  exists r2. split; [exact Hr2|]. rewrite Hu. reflexivity.
Defined.

(** X13: with distinct access and refresh secrets, the access token of a
    login is no refresh token: refresh throws its generic 500 error on it. *)
Theorem access_token_not_refreshable `{PasswordHasher} (env env2 : Env)
    (email password : string) (db db' db2 : Db) (r : AuthResult) :
  loginUserService env email password db = (Returned r, db') ->
  config env2 = config env ->
  Jwt.key_of (JWT_SECRET_ACCESS (config env))
  <> Jwt.key_of (JWT_SECRET_REFRESH (config env)) ->
  refreshTokenService env2 (Jwt.Wellformed (accessToken r)) db2 =
  (Threw (new_AppError "Failed to refresh token" 500), db2).
Proof.
  intros Hr Hcfg Hkeys. apply login_returned in Hr.
  destruct Hr as (m & _ & _ & _ & [Ha _] & _).
  apply sign_returned_secret in Ha. destruct Ha as (_ & _ & Hsig).
  pose proof (refresh_cases env2 (Jwt.Wellformed (accessToken r)) db2) as Hc.
  rewrite Hcfg in Hc.
  destruct (Jwt.verify _ _ _) as [c|] eqn:Hv; [|exact Hc].
  apply verify_returned in Hv.
  destruct Hv as (t & Ht & _ & _ & Hsig' & _). injection Ht as <-.
  rewrite Hsig in Hsig'. injection Hsig' as Hsame. contradiction.
Qed.

Lemma access_token_not_refreshable_witness :
  exists r db',
    loginUserService (hasher := toy_hasher) sample_env "a@x.com" "pw123456"
                     one_user_db = (Returned r, db')
    /\ refreshTokenService later_env (Jwt.Wellformed (accessToken r)) db'
       = (Threw (new_AppError "Failed to refresh token" 500), db').
Proof.
  do 2 eexists. split; [reflexivity|].
  apply (access_token_not_refreshable (H := toy_hasher) sample_env later_env
           "a@x.com" "pw123456" one_user_db _ _ _ eq_refl eq_refl).
  discriminate.
Defined.

(** ** What the services throw *)

(** X14: whatever goes wrong inside them, the services throw only their own
    errors: login the 404 "Login Failed" or its generic 500, register the 409
    conflict or its generic 500, refresh the 404 "Login Failed" or its
    generic 500; each is accepted by [isAppError]. *)
Theorem thrown_errors_classified `{PasswordHasher} (env : Env) (db db' : Db)
    (e : Js.value) :
  (forall email password,
      loginUserService env email password db = (Threw e, db') ->
      In e [new_AppError "Login Failed" 404;
            new_AppError "Failed to log in user" 500])
  /\ (forall input,
      registerUserService env input db = (Threw e, db') ->
      In e [new_AppError "Email already registered" 409;
            new_AppError "Failed to register user" 500])
  /\ (forall token,
      refreshTokenService env token db = (Threw e, db') ->
      In e [new_AppError "Login Failed" 404;
            new_AppError "Failed to refresh token" 500])
  /\ (forall email password input token,
      loginUserService env email password db = (Threw e, db')
      \/ registerUserService env input db = (Threw e, db')
      \/ refreshTokenService env token db = (Threw e, db') ->
      isAppError e = true
      /\ In (Js.get e "statusCode") [Js.Num 404; Js.Num 409; Js.Num 500]).
Proof.
  assert (Hlogin : forall email password,
             loginUserService env email password db = (Threw e, db') ->
             In e [new_AppError "Login Failed" 404;
                   new_AppError "Failed to log in user" 500]).
  { intros email password He.
    destruct (login_outcomes env email password db)
      as [(e0 & He0 & Hor) | (m & out & _ & _ & Hout & Hor)].
    - rewrite He0 in He. injection He as <- _.
      destruct Hor as [-> | ->]; simpl; tauto.
    - rewrite Hout in He. injection He as -> _.
      destruct Hor as [Hor | [r Hor]]; [|discriminate].
      injection Hor as <-. simpl. tauto. }
  assert (Hregister : forall input,
             registerUserService env input db = (Threw e, db') ->
             In e [new_AppError "Email already registered" 409;
                   new_AppError "Failed to register user" 500]).
  { intros input He.
    pose proof (register_cases env input db) as Hc. cbv zeta in Hc.
    unfold register_failed in Hc.
    destruct (query_error env 0);
      [rewrite Hc in He; injection He as <- _; simpl; tauto|].
    destruct (existsb _ (users db));
      [rewrite Hc in He; injection He as <- _; simpl; tauto|].
    destruct (query_error env 1);
      [rewrite Hc in He; injection He as <- _; simpl; tauto|].
    destruct (_ || _);
      [rewrite Hc in He; injection He as <- _; simpl; tauto|].
    destruct Hc as [r Hr]. rewrite Hr in He. discriminate. }
  assert (Hrefresh : forall token,
             refreshTokenService env token db = (Threw e, db') ->
             In e [new_AppError "Login Failed" 404;
                   new_AppError "Failed to refresh token" 500]).
  { intros token He.
    pose proof (refresh_cases env token db) as Hc. unfold refresh_failed in Hc.
    destruct (Jwt.verify _ _ _);
      [|rewrite Hc in He; injection He as <- _; simpl; tauto].
    destruct (query_error env 0);
      [rewrite Hc in He; injection He as <- _; simpl; tauto|].
    destruct (first_with_id _ db);
      [|rewrite Hc in He; injection He as <- _; simpl; tauto].
    destruct (Jwt.falsy _);
      [rewrite Hc in He; injection He as <- _; simpl; tauto|].
    destruct Hc as [r Hr]. rewrite Hr in He. discriminate. }
  split; [exact Hlogin|]. split; [exact Hregister|]. split; [exact Hrefresh|].
  intros email password input token [He | [He | He]];
    [apply Hlogin in He | apply Hregister in He | apply Hrefresh in He];
    simpl in He; destruct He as [<- | [<- | []]]; (split; [reflexivity|]);
    simpl; tauto.
Qed.

Lemma thrown_errors_classified_witness :
  In (new_AppError "Failed to log in user" 500)
     [new_AppError "Login Failed" 404; new_AppError "Failed to log in user" 500]
  /\ In (new_AppError "Email already registered" 409)
        [new_AppError "Email already registered" 409;
         new_AppError "Failed to register user" 500]
  /\ In (new_AppError "Failed to refresh token" 500)
        [new_AppError "Login Failed" 404;
         new_AppError "Failed to refresh token" 500].
Proof.
  split; [|split].
  - exact (proj1 (thrown_errors_classified (H := toy_hasher) store_down_env
                    one_user_db one_user_db _) "a@x.com" "pw123456" eq_refl).
  - exact (proj1 (proj2 (thrown_errors_classified (H := toy_hasher) sample_env
                           one_user_db one_user_db _)) sample_input eq_refl).
  - exact (proj1 (proj2 (proj2 (thrown_errors_classified (H := toy_hasher)
                                  much_later_env one_user_db one_user_db _)))
                 (Jwt.Wellformed sample_refresh_token) eq_refl).
Defined.

(** ** The store's invariant *)

Lemma touch_emails (id now : Z) (db : Db) :
  map User.email (users (touch id now db)) = map User.email (users db).
Proof.
  unfold touch. cbn [update_last_login snd users]. rewrite map_map.
  apply map_ext. intro u. now destruct (User.id u =? id).
Qed.

Lemma touch_ids (id now : Z) (db : Db) :
  map User.id (users (touch id now db)) = map User.id (users db).
Proof.
  unfold touch. cbn [update_last_login snd users]. rewrite map_map.
  apply map_ext. intro u. now destruct (User.id u =? id).
Qed.

Lemma store_ok_touch (id now : Z) (db : Db) :
  store_ok db -> store_ok (touch id now db).
Proof.
  unfold store_ok, unique_emails, ids_fresh. intros (Hemails & Hids & Hseq).
  rewrite touch_emails, touch_ids. split; [exact Hemails|].
  split; [exact Hids|].
  unfold touch. cbn [update_last_login snd users users_id_seq].
  apply Forall_map. revert Hseq. apply Forall_impl.
  intros u Hu. now destruct (User.id u =? id).
Qed.

Lemma store_ok_registered `{PasswordHasher} (env : Env)
    (input : RegisterUserInput.t) (db : Db) :
  existsb (fun u => String.eqb (User.email u) (RegisterUserInput.email input))
          (users db) = false ->
  store_ok db -> store_ok (with_registered env input db).
Proof.
  unfold store_ok, unique_emails, ids_fresh.
  intros Hfresh (Hemails & Hids & Hseq).
  cbn [with_registered users users_id_seq]. rewrite !map_app.
  cbn [map inserted_row User.email User.id].
  split; [|split].
  - apply NoDup_app; [exact Hemails | repeat constructor; simpl; tauto|].
    intros e He [<-|[]]. apply existsb_email_In in He. congruence.
  - apply NoDup_app; [exact Hids | repeat constructor; simpl; tauto|].
    intros i Hi [<-|[]]. apply in_map_iff in Hi.
    destruct Hi as (u & Hu & Hin).
    rewrite Forall_forall in Hseq. specialize (Hseq u Hin).
    cbn beta in Hseq. lia.
  - apply Forall_app. split.
    + revert Hseq. apply Forall_impl. intros u Hu. cbn beta. lia.
    + constructor; [|constructor]. cbn [User.id inserted_row]. lia.
Qed.

(** X15: a well-formed table (unique emails, unique ids, the id sequence
    ahead of every id) stays well formed across login, register and refresh,
    however the call ends. *)
Theorem services_keep_store_ok `{PasswordHasher} (env : Env) (db : Db) :
  store_ok db ->
  (forall email password,
      store_ok (snd (loginUserService env email password db)))
  /\ (forall input, store_ok (snd (registerUserService env input db)))
  /\ (forall token, store_ok (snd (refreshTokenService env token db))).
Proof.
  intro Hok. split; [|split].
  - intros email password.
    destruct (login_outcomes env email password db)
      as [(e & -> & _) | (m & out & _ & _ & -> & _)]; cbn [snd];
      [exact Hok | now apply store_ok_touch].
  - intro input.
    pose proof (register_cases env input db) as Hc. cbv zeta in Hc.
    destruct (query_error env 0); [now rewrite Hc|].
    destruct (existsb _ (users db)) eqn:Hfresh; [now rewrite Hc|].
    destruct (query_error env 1); [now rewrite Hc|].
    destruct (_ || _).
    + rewrite Hc. cbn [snd]. now apply store_ok_registered.
    + destruct Hc as [r ->]. cbn [snd]. now apply store_ok_registered.
  - intro token.
    pose proof (refresh_cases env token db) as Hc.
    destruct (Jwt.verify _ _ _); [|now rewrite Hc].
    destruct (query_error env 0); [now rewrite Hc|].
    destruct (first_with_id _ db); [|now rewrite Hc].
    destruct (Jwt.falsy _); [now rewrite Hc|].
    destruct Hc as [r ->]. exact Hok.
Qed.

Lemma store_ok_empty : store_ok empty_db.
Proof. repeat split; constructor. Qed.

Lemma services_keep_store_ok_witness :
  store_ok one_user_db /\ store_ok (touch 1 2000 one_user_db).
Proof.
  assert (Hone : store_ok one_user_db).
  { exact (proj1 (proj2 (services_keep_store_ok (H := toy_hasher) sample_env
                           empty_db store_ok_empty)) sample_input). }
  split; [exact Hone|].
  exact (proj1 (services_keep_store_ok (H := toy_hasher) later_env one_user_db
                  Hone) "a@x.com" "pw123456").
Defined.

(** ** requireRole *)



(** ** Register, then refresh *)

Lemma find_id_appended (l : list User.t) (a : User.t) (s : Z) :
  Forall (fun u => User.id u < s) l ->
  find (fun u => User.id u =? s) (l ++ [a]) = find (fun u => User.id u =? s) [a].
Proof.
  induction l as [|b l IH]; [reflexivity|].
  intro Hall. inversion Hall as [|x xs Hb Hl]; subst. cbn [app find].
  destruct (Z.eqb_spec (User.id b) s) as [Heq|_]; [lia | now apply IH].
Qed.

(** X17: the refresh token a registration returned is accepted by refresh
    until it expires (same configuration, the store answering, ids below the
    sequence): the row is found again by the generated id, and the new tokens
    and user carry the id and the email of the registration. *)
Theorem register_then_refresh `{PasswordHasher} (env env2 : Env)
    (input : RegisterUserInput.t) (db db' : Db) (r : AuthResult) :
  ids_fresh db ->
  registerUserService env input db = (Returned r, db') ->
  config env2 = config env ->
  query_error env2 0 = None ->
  now env2 < now env + JWT_EXPIRES_IN_LONG (config env) ->
  exists r2,
    refreshTokenService env2 (Jwt.Wellformed (refreshToken r)) db'
    = (Returned r2, db')
    /\ Jwt.userId (Jwt.payload (Jwt.claims (accessToken r2)))
       = Jwt.userId (Jwt.payload (Jwt.claims (accessToken r)))
    /\ Jwt.email (Jwt.payload (Jwt.claims (accessToken r2)))
       = Jwt.email (Jwt.payload (Jwt.claims (accessToken r)))
    /\ Js.get (user r2) "id" = Js.get (user r) "id"
    /\ Js.get (user r2) "email" = Js.get (user r) "email".
Proof.
  intros [_ Hseq] Hr Hcfg Hq Hnow. apply register_returned in Hr.
  cbv zeta in Hr. destruct Hr as (_ & Hdb & Ha & Hb & Hu).
  fold (with_registered env input db) in Hdb. subst db'.
  apply sign_returned_secret in Ha, Hb.
  destruct Ha as (Hacc & Hca & _), Hb as (Href & Hcb & Hsig).
  assert (Hrow : first_with_id (users_id_seq db) (with_registered env input db)
                 = Some (inserted_row (users_id_seq db)
                           (RegisterUserInput.email input)
                           (bcrypt_hash (RegisterUserInput.password input) 10
                                        (salt env))
                           (RegisterUserInput.first_name input)
                           (RegisterUserInput.last_name input)
                           (or_null (RegisterUserInput.date_of_birth input))
                           (or_null (RegisterUserInput.photo_url input)))).
  { unfold first_with_id. cbn [with_registered users].
    rewrite (find_id_appended _ _ _ Hseq). cbn [find inserted_row User.id].
    now rewrite Z.eqb_refl. }
  assert (Hok : exists r2,
             refreshTokenService env2 (Jwt.Wellformed (refreshToken r))
               (with_registered env input db)
             = (Returned r2, with_registered env input db)).
  { pose proof (refresh_cases env2 (Jwt.Wellformed (refreshToken r))
                  (with_registered env input db)) as Hc.
    rewrite Hcfg in Hc.
    assert (Hv : Jwt.verify (Jwt.Wellformed (refreshToken r))
                   (JWT_SECRET_REFRESH (config env)) (now env2)
                 = Returned (Jwt.claims (refreshToken r))).
    { apply verify_returned. exists (refreshToken r).
      repeat split; [exact Href | exact Hsig |]. rewrite Hcb. exact Hnow. }
    rewrite Hv, Hq, Hcb in Hc. cbn [Jwt.payload Jwt.userId] in Hc.
    rewrite Hrow, Hacc in Hc. exact Hc. }
  destruct Hok as [r2 Hr2]. exists r2. split; [exact Hr2|].
  apply refresh_returned in Hr2.
  destruct Hr2 as (c & m2 & Hv & Hm2 & _ & [Ha2 Hb2] & Hu2).
  rewrite Hcfg in Hv. apply verify_returned in Hv.
  destruct Hv as (t & Ht & -> & _). injection Ht as <-.
  rewrite Hcb in Hm2. cbn [Jwt.payload Jwt.userId] in Hm2.
  rewrite Hrow in Hm2. injection Hm2 as <-.
  apply sign_returned_secret in Ha2.
  destruct Ha2 as (_ & -> & _).
  rewrite Hca, Hu, Hu2. repeat split.
Qed.

Lemma register_then_refresh_witness :
  exists r r2,
    registerUserService (hasher := toy_hasher) sample_env sample_input
                        empty_db = (Returned r, one_user_db)
    /\ refreshTokenService later_env (Jwt.Wellformed (refreshToken r))
                           one_user_db = (Returned r2, one_user_db)
    /\ Js.get (user r2) "id" = Js.Num 1.
Proof.
  assert (Hfresh : ids_fresh empty_db) by (split; constructor).
  destruct (register_then_refresh (H := toy_hasher) sample_env later_env
              sample_input empty_db one_user_db _ Hfresh eq_refl eq_refl
              eq_refl eq_refl)
    as (r2 & Hr2 & _ & _ & Hid & _).
  eexists. exists r2. split; [reflexivity|]. split; [exact Hr2 | exact Hid].
Defined.
